(** * exam_finder: the authentication flow and the enrollment store

    A shallow embedding of [student_exam.py] (registration, login, bearer
    tokens, the protected endpoints) and of the enrollment part of [main.py].

    The two Python files are thin layers over four libraries: the standard
    [datetime] module, python-jose ([jwt.encode] / [jwt.decode]), passlib
    ([CryptContext.hash] / [CryptContext.verify]) and SQLAlchemy on SQLite.
    Each library is modelled in a module of its own, by what its routine does
    on the values this program hands it; the cryptography is symbolic (a
    signature records the key it verifies under, a bcrypt checksum records
    what it digests).  The functions of the repository keep their names and
    are translated line by line on top of these modules. *)

From Stdlib Require Import ZArith List String Ascii Bool Lia.
Import ListNotations.
Local Open Scope string_scope.
Local Open Scope Z_scope.

(* ================================================================== *)
(** ** Python values, exceptions and results *)
(* ================================================================== *)

(** The exception classes that can reach the code under study.  The three
    python-jose classes are the ones [except JWTError] catches:
    [ExpiredSignatureError] and [JWTClaimsError] derive from [JWTError].
    [JWSError] does not.  The three passlib classes all derive from
    [ValueError]. *)
Inductive exn : Type :=
| HTTPException (status_code : Z) (detail : string)
                (headers : list (string * string))
| JWSError
| JWTError
| ExpiredSignatureError
| JWTClaimsError
| TypeError
| ValueError
| OverflowError
| UnknownHashError
| PasswordSizeError
| PasswordValueError
| MultipleResultsFound
| IntegrityError.

(** [isinstance(e, JWTError)] *)
Definition is_JWTError (e : exn) : bool :=
  match e with
  | JWTError | ExpiredSignatureError | JWTClaimsError => true
  | _ => false
  end.

(** A call either returns a value or raises. *)
Inductive result (A : Type) : Type :=
| Return (a : A)
| Raise (e : exn).
Arguments Return {A} a.
Arguments Raise {A} e.

Definition bind {A B : Type} (r : result A) (k : A -> result B) : result B :=
  match r with
  | Return a => k a
  | Raise e => Raise e
  end.

Notation "x <- r ;; k" := (bind r (fun x => k))
  (at level 61, r at next level, right associativity).

(** A Python [float]: [mantissa * 2 ^ exponent], an infinity, or a NaN. *)
Inductive pyfloat : Type :=
| Finite (mantissa exponent : Z)
| Infinity (negative : bool)
| NaN.

(** JSON values as [json.loads] produces them: a number is an [int] when
    its text has neither fraction nor exponent, a [float] otherwise.  A
    term stands for a value the parser returned; a text nested deeper than
    the interpreter's recursion limit, on which [json.loads] raises
    [RecursionError], has no term. *)
#[local] Unset Elimination Schemes.
Inductive json : Type :=
| JNull
| JBool (b : bool)
| JInt (z : Z)
| JStr (s : string)
| JArr (l : list json)
| JObj (m : list (string * json))
| JFloat (f : pyfloat).
#[local] Set Elimination Schemes.

(** A Python [dict] with string keys, in insertion order. *)
Definition dict : Type := list (string * json).

(** [d.get(key)]: [None] both when the key is absent and when it maps to
    JSON [null] (Python's [None]). *)
Fixpoint dict_lookup (d : dict) (key : string) : option json :=
  match d with
  | [] => None
  | (k, v) :: d' => if String.eqb k key then Some v else dict_lookup d' key
  end.

(** [key in d] *)
Definition dict_mem (d : dict) (key : string) : bool :=
  match dict_lookup d key with Some _ => true | None => false end.

(* ================================================================== *)
(** ** The [datetime] module *)
(* ================================================================== *)

Module Datetime.

(** An aware UTC [datetime] is its offset from the epoch in microseconds,
    the resolution of the type. *)
Definition datetime : Type := Z.

Definition us_per_second : Z := 1000000.
Definition us_per_minute : Z := 60 * us_per_second.
Definition us_per_day : Z := 86400 * us_per_second.

(** [datetime.min] is 0001-01-01T00:00:00 and [datetime.max] is
    9999-12-31T23:59:59.999999. *)
Definition min_us : Z := -62135596800 * us_per_second.
Definition max_us : Z := 253402300799 * us_per_second + 999999.

Definition in_range (t : datetime) : bool :=
  (min_us <=? t) && (t <=? max_us).

(** [timedelta(minutes=m)]: the day count of a [timedelta] is limited to
    999999999 in magnitude. *)
Definition max_delta_days : Z := 999999999.

Definition timedelta_minutes (m : Z) : result Z :=
  let us := m * us_per_minute in
  let days := us / us_per_day in
  if (- max_delta_days <=? days) && (days <=? max_delta_days)
  then Return us
  else Raise OverflowError.

(** [t + delta]: the sum has to be a date of the years 1 to 9999. *)
Definition add (t : datetime) (delta : Z) : result datetime :=
  if in_range (t + delta) then Return (t + delta) else Raise OverflowError.

(** [int(t.timestamp())].  [timestamp()] divides the microsecond count by
    [10**6] into a double, correctly rounded, and [int] truncates towards
    zero.  A double of magnitude in [2^k, 2^(k+1)) has spacing [2^(k-52)],
    so the quotient of a count whose fraction lies within half a spacing
    below the next whole second is rounded up to that second. *)
Definition rounds_up (whole frac : Z) : bool :=
  (0 <? whole) && (0 <? frac) &&
  ((us_per_second - frac) * 2 ^ 53 <=? us_per_second * 2 ^ Z.log2 whole).

Definition timestamp_int (t : datetime) : Z :=
  let n := Z.abs t in
  let whole := n / us_per_second in
  let frac := n mod us_per_second in
  Z.sgn t * (if rounds_up whole frac then whole + 1 else whole).

(** [timegm(t.utctimetuple())]: the time tuple drops the microseconds, the
    result is the whole second at or before [t]. *)
Definition timegm_utc (t : datetime) : Z := t / us_per_second.

End Datetime.

(* ================================================================== *)
(** ** Python's [int()] on a JSON value *)
(* ================================================================== *)

Module Python.

(** The ASCII characters [int] strips as white space: the blank and the
    controls 9 to 13. *)
Definition is_space (c : ascii) : bool :=
  let n := Z.of_nat (nat_of_ascii c) in
  (n =? 32) || ((9 <=? n) && (n <=? 13)).

Definition digit_of (c : ascii) : option Z :=
  let n := Z.of_nat (nat_of_ascii c) in
  if (48 <=? n) && (n <=? 57) then Some (n - 48) else None.

Fixpoint lstrip (s : string) : string :=
  match s with
  | String c s' => if is_space c then lstrip s' else s
  | EmptyString => s
  end.

(** The digits of a literal: digits, single underscores between digits,
    then only white space. *)
Fixpoint digits (acc : Z) (after_digit : bool) (s : string) : option Z :=
  match s with
  | EmptyString => if after_digit then Some acc else None
  | String c s' =>
      match digit_of c with
      | Some d => digits (10 * acc + d) true s'
      | None =>
          if Ascii.eqb c "_"%char then
            if after_digit then digits acc false s' else None
          else if is_space c && after_digit then
            if String.eqb (lstrip s') EmptyString then Some acc else None
          else None
      end
  end.

(** The literal of a [str] in base ten: white space, a sign, digits. *)
Definition literal_of_str (s : string) : option Z :=
  match lstrip s with
  | String c s' =>
      if Ascii.eqb c "-"%char then
        match s' with
        | String d _ =>
            match digit_of d with
            | Some _ => option_map Z.opp (digits 0 false s')
            | None => None
            end
        | EmptyString => None
        end
      else if Ascii.eqb c "+"%char then
        match s' with
        | String d _ =>
            match digit_of d with
            | Some _ => digits 0 false s'
            | None => None
            end
        | EmptyString => None
        end
      else
        match digit_of c with
        | Some _ => digits 0 false (String c s')
        | None => None
        end
  | EmptyString => None
  end.

Fixpoint count_digits (s : string) : Z :=
  match s with
  | EmptyString => 0
  | String c s' =>
      (match digit_of c with Some _ => 1 | None => 0 end) + count_digits s'
  end.

(** [sys.get_int_max_str_digits()], as Python 3.11 sets it. *)
Definition MAX_STR_DIGITS : Z := 4300.

(** [int(s)] for a [str] of ASCII text: its literal, unless it has more
    digits than the limit.  (Python also reads the decimal digits and the
    white space of other scripts, which ASCII text has none of.) *)
Definition int_of_str (s : string) : option Z :=
  if MAX_STR_DIGITS <? count_digits s then None else literal_of_str s.

(** [int(x)] for a [float]: the value cut towards zero; an infinity is an
    [OverflowError], a NaN a [ValueError]. *)
Definition int_of_float (f : pyfloat) : result Z :=
  match f with
  | Finite m e =>
      Return (if 0 <=? e then m * 2 ^ e else Z.quot m (2 ^ (- e)))
  | Infinity _ => Raise OverflowError
  | NaN => Raise ValueError
  end.

(** [int(v)]: a [bool] is an [int], a [float] is cut, a [str] is parsed
    ([ValueError] when it is no literal), [None], lists and dicts are a
    [TypeError]. *)
Definition int (v : json) : result Z :=
  match v with
  | JInt z => Return z
  | JBool b => Return (if b then 1 else 0)
  | JFloat f => int_of_float f
  | JStr s =>
      match int_of_str s with
      | Some z => Return z
      | None => Raise ValueError
      end
  | JNull | JArr _ | JObj _ => Raise TypeError
  end.

End Python.

(* ================================================================== *)
(** ** python-jose: [jws.sign], [jws.verify], [jwt.encode], [jwt.decode] *)
(* ================================================================== *)

Module Jose.

(** The payload segment of a token after base64url decoding: the text of
    a JSON value, or bytes that [json.loads] rejects. *)
Inductive payload : Type :=
| JsonText (j : json)
| NotJson (bytes : string).

(** The signature segment, symbolically: an HMAC tag over this token's own
    signing input, computed with algorithm [alg] under the padded key
    [key], or any other byte string (the tag of another token, of a payload
    since altered, noise). *)
Inductive signature : Type :=
| Hmac (alg key : string)
| OtherBytes (bytes : string).

(** The block of SHA-256, in bytes. *)
Definition HMAC_BLOCK_SIZE : Z := 64.

(** A string without the NUL bytes at its end. *)
Fixpoint strip_nuls (s : string) : string :=
  match s with
  | EmptyString => EmptyString
  | String c s' =>
      match strip_nuls s' with
      | EmptyString => if Ascii.eqb c zero then EmptyString
                       else String c EmptyString
      | rest => String c rest
      end
  end.

(** The key HMAC works with.  A key of at most a block is padded with NUL
    bytes to the block, so two such keys that differ only in NUL bytes at
    their end are one key: it stands here without them.  A longer key is
    hashed first; it stands here whole. *)
Definition hmac_key (key : string) : string :=
  if Z.of_nat (String.length key) <=? HMAC_BLOCK_SIZE then strip_nuls key
  else key.

(** A token string, by what [jws._load] makes of it: three base64url
    segments whose first decodes to a JSON object, or anything else. *)
Inductive token : Type :=
| Compact (header : dict) (body : payload) (sig : signature)
| NotCompact (s : string).

Definition sig_matches (sig : signature) (alg key : string) : bool :=
  match sig with
  | Hmac a k => String.eqb a alg && String.eqb k (hmac_key key)
  | OtherBytes _ => false
  end.

(** [jws.sign(claims, key, algorithm=algorithm)], [algorithm] one of the
    HMAC algorithms. *)
Definition jws_sign (claims : dict) (key algorithm : string) : token :=
  Compact [("alg", JStr algorithm); ("typ", JStr "JWT")]
          (JsonText (JObj claims))
          (Hmac algorithm (hmac_key key)).

(** [jws.verify(token, key, algorithms)]: every failure is a [JWSError]. *)
Definition jws_verify (tok : token) (key : string)
           (algorithms : list string) : result payload :=
  match tok with
  | NotCompact _ => Raise JWSError
  | Compact header body sig =>
      match dict_lookup header "alg" with
      | Some (JStr alg) =>
          if String.eqb alg "" then Raise JWSError
          else if negb (existsb (String.eqb alg) algorithms)
          then Raise JWSError
          else if sig_matches sig alg key then Return body
          else Raise JWSError
      | _ => Raise JWSError
      end
  end.

(** The time claims go through [int()]; its [ValueError] becomes a
    [JWTClaimsError], any other exception of [int()] escapes. *)
Definition int_claim (v : json) : result Z :=
  match Python.int v with
  | Raise ValueError => Raise JWTClaimsError
  | r => r
  end.

Definition validate_iat (claims : dict) : result unit :=
  match dict_lookup claims "iat" with
  | None => Return tt
  | Some v => _ <- int_claim v ;; Return tt
  end.

Definition validate_nbf (claims : dict) (now : Z) : result unit :=
  match dict_lookup claims "nbf" with
  | None => Return tt
  | Some v =>
      nbf <- int_claim v ;;
      if now <? nbf then Raise JWTClaimsError else Return tt
  end.

(** [if exp < (now - leeway): raise ExpiredSignatureError], leeway 0. *)
Definition validate_exp (claims : dict) (now : Z) : result unit :=
  match dict_lookup claims "exp" with
  | None => Return tt
  | Some v =>
      exp <- int_claim v ;;
      if exp <? now then Raise ExpiredSignatureError else Return tt
  end.

(** With no audience given to [decode], a token that carries an [aud]
    claim is refused whatever the claim holds. *)
Definition validate_aud (claims : dict) : result unit :=
  if dict_mem claims "aud" then Raise JWTClaimsError else Return tt.

Definition validate_str_claim (claims : dict) (name : string)
  : result unit :=
  match dict_lookup claims name with
  | None | Some (JStr _) => Return tt
  | Some _ => Raise JWTClaimsError
  end.

(** With no access token given, an [at_hash] claim cannot be checked. *)
Definition validate_at_hash (claims : dict) : result unit :=
  if dict_mem claims "at_hash" then Raise JWTClaimsError else Return tt.

(** [_validate_claims] under the default options, in its order. *)
Definition validate_claims (claims : dict) (now : Z) : result unit :=
  _ <- validate_iat claims ;;
  _ <- validate_nbf claims now ;;
  _ <- validate_exp claims now ;;
  _ <- validate_aud claims ;;
  _ <- validate_str_claim claims "sub" ;;
  _ <- validate_str_claim claims "jti" ;;
  validate_at_hash claims.

(** [jwt.encode(claims, key, algorithm=algorithm)], for a key the library
    takes as an HMAC secret (it refuses one that holds a PEM or [ssh-rsa]
    marker; the service's secret holds none). *)
Definition encode (claims : dict) (key algorithm : string) : token :=
  jws_sign claims key algorithm.

(** [jwt.decode(token, key, algorithms=algorithms)], the clock read at
    [now]. *)
Definition decode (tok : token) (key : string) (algorithms : list string)
           (now : Datetime.datetime) : result dict :=
  match jws_verify tok key algorithms with
  | Raise JWSError => Raise JWTError
  | Raise e => Raise e
  | Return (JsonText (JObj claims)) =>
      _ <- validate_claims claims (Datetime.timegm_utc now) ;;
      Return claims
  | Return _ => Raise JWTError
  end.

End Jose.

(* ================================================================== *)
(** ** passlib: [CryptContext(schemes=["bcrypt"])] *)
(* ================================================================== *)

Module Passlib.

(** The checksum field of a bcrypt hash string, symbolically: the bcrypt
    digest of [secret] under the identifier, cost and salt of the string
    it stands in, or any other 31 characters. *)
Inductive checksum : Type :=
| DigestOf (secret : string)
| OtherChecksum (chars : string).

(** A hash string, by what the context makes of it: a well-formed
    [$<ident>$<rounds>$<salt><checksum>], a string that starts like a
    bcrypt hash and does not parse, or a string of no configured scheme. *)
Inductive hash_string : Type :=
| Bcrypt (ident : string) (rounds : Z) (salt : string) (chk : checksum)
| MalformedBcrypt (s : string)
| Unidentified (s : string).

(** [passlib.utils.handlers.MAX_PASSWORD_SIZE] *)
Definition MAX_PASSWORD_SIZE : Z := 4096.

Definition default_ident : string := "2b".
Definition default_rounds : Z := 12.

Fixpoint contains_nul (s : string) : bool :=
  match s with
  | EmptyString => false
  | String c s' => Ascii.eqb c zero || contains_nul s'
  end.

(** bcrypt digests the first 72 bytes of the secret. *)
Definition truncate (secret : string) : string := substring 0 72 secret.

(** What both [hash] and [verify] do to the secret before the digest:
    [validate_secret], then the handler's refusal of NUL bytes. *)
Definition prepare_secret (secret : string) : result string :=
  if MAX_PASSWORD_SIZE <? Z.of_nat (String.length secret)
  then Raise PasswordSizeError
  else if contains_nul secret then Raise PasswordValueError
  else Return (truncate secret).

(** [pwd_context.hash(secret)]; [salt] is the salt the call draws. *)
Definition hash (salt secret : string) : result hash_string :=
  digest_input <- prepare_secret secret ;;
  Return (Bcrypt default_ident default_rounds salt (DigestOf digest_input)).

(** [pwd_context.verify(secret, hash)] for a [str] hash: the hash is
    identified first, then parsed, then the digest is recomputed with the
    parameters it carries and compared with its checksum. *)
Definition verify (secret : string) (h : hash_string) : result bool :=
  match h with
  | Unidentified _ => Raise UnknownHashError
  | MalformedBcrypt _ =>
      if MAX_PASSWORD_SIZE <? Z.of_nat (String.length secret)
      then Raise PasswordSizeError
      else Raise ValueError
  | Bcrypt _ _ _ chk =>
      digest_input <- prepare_secret secret ;;
      Return (match chk with
              | DigestOf s => String.eqb s digest_input
              | OtherChecksum _ => false
              end)
  end.

End Passlib.

(* ================================================================== *)
(** ** student_exam.py *)
(* ================================================================== *)

Module StudentExam.

(** *** Settings *)

Definition SECRET_KEY : string := "CHANGE_ME_TO_A_LONG_RANDOM_SECRET".
Definition ALGORITHM : string := "HS256".
Definition ACCESS_TOKEN_EXPIRE_MINUTES : Z := 60.

Definition HTTP_401_UNAUTHORIZED : Z := 401.

(** *** Database model and schemas *)

(** A row of the [students] table. *)
Record Student : Type := mkStudent {
  id : Z;
  name : string;
  email : string;
  hashed_password : Passlib.hash_string;
  is_active : bool
}.

Record StudentCreate : Type := mkStudentCreate {
  create_name : string;
  create_email : string;
  create_password : string
}.

Record StudentOut : Type := mkStudentOut {
  out_id : Z;
  out_name : string;
  out_email : string
}.

Record Token : Type := mkToken {
  access_token : Jose.token;
  token_type : string
}.

Record OAuth2PasswordRequestForm : Type := mkForm {
  username : string;
  password : string
}.

(** The session sees the [students] table, in row order. *)
Definition Session : Type := list Student.

(** [StudentOut] built from the attributes of a row
    ([response_model=StudentOut], [from_attributes=True]); the emails of
    the rows passed [EmailStr] when they were registered. *)
Definition to_StudentOut (s : Student) : StudentOut :=
  mkStudentOut (id s) (name s) (email s).

(** [Result.scalar_one_or_none()] *)
Definition scalar_one_or_none {A : Type} (rows : list A)
  : result (option A) :=
  match rows with
  | [] => Return None
  | [r] => Return (Some r)
  | _ => Raise MultipleResultsFound
  end.

(** The id SQLite gives a new row of an [INTEGER PRIMARY KEY] table: one
    more than the largest id present. *)
Definition next_id (db : Session) : Z :=
  1 + fold_right Z.max 0 (map id db).

Definition email_taken (db : Session) (e : string) : bool :=
  existsb (fun s => String.eqb (email s) e) db.

(** [db.add(new_student); db.commit(); db.refresh(new_student)]: the
    insert fails on the unique index on [email]; the columns the
    constructor leaves out get the key and the default. *)
Definition add_commit_refresh (db : Session) (n e : string)
           (h : Passlib.hash_string) : result (Session * Student) :=
  if email_taken db e then Raise IntegrityError
  else
    let row := mkStudent (next_id db) n e h true in
    Return ((db ++ [row])%list, row).

(** *** Helper functions *)

Definition get_password_hash (salt password : string)
  : result Passlib.hash_string :=
  Passlib.hash salt password.

Definition verify_password (plain_password : string)
           (hashed_password : Passlib.hash_string) : result bool :=
  Passlib.verify plain_password hashed_password.

(** [now] is the value of [datetime.now(timezone.utc)]. *)
Definition create_access_token (now : Datetime.datetime)
           (subject : string) (expires_minutes : Z) : result Jose.token :=
  let iat := Datetime.timestamp_int now in
  delta <- Datetime.timedelta_minutes expires_minutes ;;
  expiry <- Datetime.add now delta ;;
  let payload := [("sub", JStr subject);
                  ("iat", JInt iat);
                  ("exp", JInt (Datetime.timestamp_int expiry))] in
  Return (Jose.encode payload SECRET_KEY ALGORITHM).

Definition get_student_by_email (db : Session) (e : string)
  : result (option Student) :=
  scalar_one_or_none (filter (fun s => String.eqb (email s) e) db).

Definition credentials_exception : exn :=
  HTTPException HTTP_401_UNAUTHORIZED "Could not validate credentials"
                [("WWW-Authenticate", "Bearer")].

(** The [try] block of [get_current_student]: the value bound to [email]
    when the block is left normally.  [now] is the clock [jwt.decode]
    reads. *)
Definition decode_subject (now : Datetime.datetime) (token : Jose.token)
  : result json :=
  match Jose.decode token SECRET_KEY [ALGORITHM] now with
  | Return payload =>
      match dict_lookup payload "sub" with
      | None | Some JNull => Raise credentials_exception
      | Some v => Return v
      end
  | Raise e =>
      if is_JWTError e then Raise credentials_exception else Raise e
  end.

(** A value that is no [str] equals no [email] of the table. *)
Definition get_current_student (db : Session) (now : Datetime.datetime)
           (token : Jose.token) : result Student :=
  v <- decode_subject now token ;;
  student <- match v with
             | JStr e => get_student_by_email db e
             | _ => Return None
             end ;;
  match student with
  | None => Raise credentials_exception
  | Some s => Return s
  end.

(** *** Auth routes *)

(** [register] returns the database it leaves and its outcome; [salt] is
    the salt [get_password_hash] draws. *)
Definition register (db : Session) (salt : string) (payload : StudentCreate)
  : Session * result Student :=
  match get_student_by_email db (create_email payload) with
  | Raise e => (db, Raise e)
  | Return (Some _) =>
      (db, Raise (HTTPException 400 "Email already registered" []))
  | Return None =>
      match get_password_hash salt (create_password payload) with
      | Raise e => (db, Raise e)
      | Return h =>
          match add_commit_refresh db (create_name payload)
                                   (create_email payload) h with
          | Raise e => (db, Raise e)
          | Return (db', new_student) => (db', Return new_student)
          end
      end
  end.

(** [@app.post("/auth/register", response_model=StudentOut)] *)
Definition post_auth_register (db : Session) (salt : string)
           (payload : StudentCreate) : Session * result StudentOut :=
  let (db', r) := register db salt payload in
  (db', x <- r ;; Return (to_StudentOut x)).

Definition login_exception : exn :=
  HTTPException HTTP_401_UNAUTHORIZED "Incorrect email or password"
                [("WWW-Authenticate", "Bearer")].

Definition login (db : Session) (now : Datetime.datetime)
           (form_data : OAuth2PasswordRequestForm) : result Token :=
  student <- get_student_by_email db (username form_data) ;;
  match student with
  | None => Raise login_exception
  | Some s =>
      ok <- verify_password (password form_data) (hashed_password s) ;;
      if negb ok then Raise login_exception
      else
        tok <- create_access_token now (email s)
                                   ACCESS_TOKEN_EXPIRE_MINUTES ;;
        Return (mkToken tok "bearer")
  end.

(** *** Protected routes *)

(** [GET /me]: the dependency, then the handler's row as [StudentOut]. *)
Definition get_current_student_info (db : Session)
           (now : Datetime.datetime) (token : Jose.token)
  : result StudentOut :=
  current_student <- get_current_student db now token ;;
  Return (to_StudentOut current_student).

(** The handler body of [GET /me/exams]; [term] is the query parameter,
    "2026W" when the request has none. *)
Definition my_exams (term : string) (current_student : Student) : json :=
  let exams :=
    [JObj [("course", JStr "Math 101"); ("term", JStr term);
           ("date", JStr "2026-12-15"); ("grade", JStr "A")];
     JObj [("course", JStr "History 201"); ("term", JStr term);
           ("date", JStr "2026-12-18"); ("grade", JStr "B+")]] in
  JObj [("student_id", JInt (id current_student));
        ("term", JStr term);
        ("exams", JArr exams)].

(** [GET /me/exams]: the dependency, then the handler. *)
Definition get_me_exams (db : Session) (now : Datetime.datetime)
           (token : Jose.token) (term : string) : result json :=
  current_student <- get_current_student db now token ;;
  Return (my_exams term current_student).

End StudentExam.

(* ================================================================== *)
(** ** main.py: students, courses and enrollments *)
(* ================================================================== *)

Module Main.

Record Student : Type := mkStudent {
  Student_id : Z;
  Student_name : string
}.

Record Course : Type := mkCourse {
  Course_id : Z;
  Course_title : string;
  Course_description : string;
  Course_credits : Z
}.

Record Enrollment : Type := mkEnrollment {
  Enrollment_id : Z;
  Enrollment_student_id : Z;
  Enrollment_course_id : Z
}.

Record EnrollRequest : Type := mkEnrollRequest {
  student_id : Z;
  course_id : Z
}.

(** The three tables of [school.db], in row order. *)
Record Database : Type := mkDatabase {
  students : list Student;
  courses : list Course;
  enrollments : list Enrollment
}.

(** [Base.metadata.create_all] on a fresh file. *)
Definition empty : Database := mkDatabase [] [] [].

Definition next_id (ids : list Z) : Z := 1 + fold_right Z.max 0 ids.

(** [session.get(Student, pk)] and [session.get(Course, pk)], as a search
    of the table by primary key.  The key is a Python integer and the
    column a signed 64-bit one: the rows of a real table all carry keys
    between -2^63 and 2^63 - 1, and for a [pk] outside of these the driver
    raises [OverflowError] while binding it, before the table is read.
    That exception is not part of these two definitions: they say what the
    table holds under [pk].  Statements about keys that no row has are made
    for keys within the range (see [sqlite_integer] below). *)
Definition get_Student (db : Database) (pk : Z) : option Student :=
  find (fun s => Student_id s =? pk) (students db).

Definition get_Course (db : Database) (pk : Z) : option Course :=
  find (fun c => Course_id c =? pk) (courses db).

(** The pair that [uq_student_course] keeps unique. *)
Definition pair_of (e : Enrollment) : Z * Z :=
  (Enrollment_student_id e, Enrollment_course_id e).

Definition same_pair (sid cid : Z) (e : Enrollment) : bool :=
  (Enrollment_student_id e =? sid) && (Enrollment_course_id e =? cid).

Definition enrolled (db : Database) (sid cid : Z) : bool :=
  existsb (same_pair sid cid) (enrollments db).

(** [session.add(enrollment); session.commit()]: the insert is refused
    with an [IntegrityError] when [uq_student_course] would be violated.
    SQLite leaves foreign keys unchecked unless asked to. *)
Definition add_commit_Enrollment (db : Database) (sid cid : Z)
  : result Database :=
  if enrolled db sid cid then Raise IntegrityError
  else
    let row := mkEnrollment
                 (next_id (map Enrollment_id (enrollments db))) sid cid in
    Return (mkDatabase (students db) (courses db)
                       (enrollments db ++ [row])%list).

(** Each handler returns the database it leaves and its outcome. *)

Definition create_student (db : Database) (payload_name : string)
  : Database * result Student :=
  let student :=
    mkStudent (next_id (map Student_id (students db))) payload_name in
  (mkDatabase (students db ++ [student])%list (courses db)
              (enrollments db),
   Return student).

Definition delete_student (db : Database) (sid : Z)
  : Database * result json :=
  match get_Student db sid with
  | None => (db, Raise (HTTPException 404 "Student not found" []))
  | Some _ =>
      (mkDatabase
         (filter (fun s => negb (Student_id s =? sid)) (students db))
         (courses db) (enrollments db),
       Return (JObj [("deleted", JInt sid)]))
  end.

Definition create_course (db : Database) (payload_title : string)
  : Database * result Course :=
  let course :=
    mkCourse (next_id (map Course_id (courses db))) payload_title "" 3 in
  (mkDatabase (students db) (courses db ++ [course])%list
              (enrollments db),
   Return course).

Definition enroll (db : Database) (req : EnrollRequest)
  : Database * result json :=
  match get_Student db (student_id req) with
  | None => (db, Raise (HTTPException 404 "Student not found" []))
  | Some _ =>
      match get_Course db (course_id req) with
      | None => (db, Raise (HTTPException 404 "Course not found" []))
      | Some _ =>
          match add_commit_Enrollment db (student_id req)
                                      (course_id req) with
          | Raise _ =>
              (* session.rollback() *)
              (db, Raise (HTTPException 400
                            "Already enrolled (or invalid)" []))
          | Return db' =>
              (db', Return (JObj [("enrolled", JBool true);
                                  ("student_id", JInt (student_id req));
                                  ("course_id", JInt (course_id req))]))
          end
      end
  end.

(** One request that writes: the database before and after it.  The
    other handlers only read. *)
Inductive step : Database -> Database -> Prop :=
| step_create_student db n :
    step db (fst (create_student db n))
| step_delete_student db sid :
    step db (fst (delete_student db sid))
| step_create_course db t :
    step db (fst (create_course db t))
| step_enroll db req :
    step db (fst (enroll db req)).

(** The databases the service reaches from the empty one. *)
Inductive reachable : Database -> Prop :=
| reachable_empty : reachable empty
| reachable_step db db' : reachable db -> step db db' -> reachable db'.

(** No two enrollment rows with the same (student_id, course_id). *)
Definition unique_pairs (db : Database) : Prop :=
  NoDup (map pair_of (enrollments db)).

(** *** The handlers that only read *)

Record CourseOut : Type := mkCourseOut {
  CourseOut_id : Z;
  CourseOut_title : string
}.

Record StudentWithCourses : Type := mkStudentWithCourses {
  StudentWithCourses_id : Z;
  StudentWithCourses_name : string;
  StudentWithCourses_courses : list CourseOut
}.

Definition to_CourseOut (c : Course) : CourseOut :=
  mkCourseOut (Course_id c) (Course_title c).

Definition read_root : json :=
  JObj [("message", JStr "Welcome to the School Management System API")].

(** [GET /students]; [StudentOut] has the two fields of a row. *)
Definition list_students (db : Database) : list Student := students db.

(** [GET /students/{student_id}] *)
Definition get_student (db : Database) (sid : Z) : result Student :=
  match get_Student db sid with
  | None => Raise (HTTPException 404 "Student not found" [])
  | Some student => Return student
  end.

(** [GET /courses] *)
Definition list_courses (db : Database) : list CourseOut :=
  map to_CourseOut (courses db).

(** [select(Course).join(Enrollment, Enrollment.course_id == Course.id)
    .where(Enrollment.student_id == student_id)]: a course row for every
    enrollment row of the student that names it.  SQL fixes no order of
    the rows; they come here course by course. *)
Definition joined_courses (db : Database) (sid : Z) : list Course :=
  flat_map
    (fun c =>
       map (fun _ => c)
           (filter (fun e => (Enrollment_course_id e =? Course_id c) &&
                             (Enrollment_student_id e =? sid))
                   (enrollments db)))
    (courses db).

(** [GET /students/{student_id}/courses] *)
Definition get_student_courses (db : Database) (sid : Z)
  : result StudentWithCourses :=
  match get_Student db sid with
  | None => Raise (HTTPException 404 "Student not found" [])
  | Some student =>
      Return (mkStudentWithCourses
                (Student_id student) (Student_name student)
                (map to_CourseOut (joined_courses db sid)))
  end.

End Main.

(* ================================================================== *)
(** ** Notions the statements use *)
(* ================================================================== *)

(** The claims [create_access_token] writes at [now]. *)
Definition issued_claims (now : Datetime.datetime) (subject : string)
           (expires_minutes : Z) : dict :=
  [("sub", JStr subject);
   ("iat", JInt (Datetime.timestamp_int now));
   ("exp", JInt (Datetime.timestamp_int
                   (now + expires_minutes * Datetime.us_per_minute)))].

(** A token whose structure cannot be parsed: no three segments, or a
    payload that is not the text of a JSON object. *)
Definition unparseable (token : Jose.token) : bool :=
  match token with
  | Jose.NotCompact _ => true
  | Jose.Compact _ (Jose.NotJson _) _ => true
  | Jose.Compact _ (Jose.JsonText (JObj _)) _ => false
  | Jose.Compact _ (Jose.JsonText _) _ => true
  end.

(** The outcome of the account lookup that follows the [try] block. *)
Definition lookup_outcome (db : StudentExam.Session) (e : string)
  : result StudentExam.Student :=
  student <- StudentExam.get_student_by_email db e ;;
  match student with
  | None => Raise StudentExam.credentials_exception
  | Some s => Return s
  end.




(** A password the bcrypt handler takes: at most [MAX_PASSWORD_SIZE] bytes
    and no NUL byte. *)
Definition acceptable_password (p : string) : bool :=
  (Z.of_nat (String.length p) <=? Passlib.MAX_PASSWORD_SIZE) &&
  negb (Passlib.contains_nul p).

(** A hash string as [get_password_hash] returns them. *)
Definition well_formed_hash (h : Passlib.hash_string) : bool :=
  match h with
  | Passlib.Bcrypt _ _ _ _ => true
  | _ => false
  end.

(** The status line of the response: the handler's value is a 200, an
    [HTTPException] carries its own status, any other exception is the
    server's 500. *)
Definition status_of {A : Type} (r : result A) : Z :=
  match r with
  | Return _ => 200
  | Raise (HTTPException status_code _ _) => status_code
  | Raise _ => 500
  end.

(** The values of the specification's scenario: Ana's registration, the
    salt drawn for her hash, her row, and an instant of November 2026. *)
Definition ana : StudentExam.StudentCreate :=
  StudentExam.mkStudentCreate "Ana" "a@x.com" "secret123".

Definition ana_salt : string := "N9qo8uLOickgx2ZMRZoMye".

Definition ana_row : StudentExam.Student :=
  StudentExam.mkStudent
    1 "Ana" "a@x.com"
    (Passlib.Bcrypt "2b" 12 ana_salt (Passlib.DigestOf "secret123")) true.

Definition t0 : Datetime.datetime := 1793700000000000.

(** A password with a NUL byte in it. *)
Definition nul_password : string := "pass" ++ String zero "word".

(** The first instant, in microseconds, at which a double can round the
    seconds of a date up to the next whole second: [2^34] seconds, in the
    year 2514. *)
Definition exact_until : Z := 2 ^ 34 * 1000000.

(** A key that SQLite can hold and the driver can bind: a signed 64-bit
    integer.  With any other key a lookup does not reach the table (the
    driver raises [OverflowError]); what is stated below about keys that no
    row has is stated for these. *)
Definition sqlite_integer (k : Z) : bool :=
  (- 2 ^ 63 <=? k) && (k <=? 2 ^ 63 - 1).

(** Every primary key of the three tables occurs once, and is positive. *)
Definition keys_unique (db : Main.Database) : Prop :=
  NoDup (map Main.Student_id (Main.students db)) /\
  NoDup (map Main.Course_id (Main.courses db)) /\
  NoDup (map Main.Enrollment_id (Main.enrollments db)).

Definition keys_positive (db : Main.Database) : Prop :=
  Forall (fun k => 1 <= k) (map Main.Student_id (Main.students db)) /\
  Forall (fun k => 1 <= k) (map Main.Course_id (Main.courses db)) /\
  Forall (fun k => 1 <= k) (map Main.Enrollment_id (Main.enrollments db)).

(** Every enrollment row names a course of the [courses] table. *)
Definition courses_exist (db : Main.Database) : Prop :=
  forall e, In e (Main.enrollments db) ->
            Main.get_Course db (Main.Enrollment_course_id e) <> None.

(** The school after Ana was created, Math 101 was created, and Ana was
    enrolled in it. *)
Definition school_before : Main.Database :=
  Main.mkDatabase [Main.mkStudent 1 "Ana"]
                  [Main.mkCourse 1 "Math 101" "" 3] [].

Definition school : Main.Database :=
  Main.mkDatabase [Main.mkStudent 1 "Ana"]
                  [Main.mkCourse 1 "Math 101" "" 3]
                  [Main.mkEnrollment 1 1 1].

(** The school after Bob arrived, History 201 was created, and both were
    enrolled in both courses. *)
Definition school_two : Main.Database :=
  Main.mkDatabase [Main.mkStudent 1 "Ana"; Main.mkStudent 2 "Bob"]
                  [Main.mkCourse 1 "Math 101" "" 3;
                   Main.mkCourse 2 "History 201" "" 3]
                  [Main.mkEnrollment 1 1 1; Main.mkEnrollment 2 1 2;
                   Main.mkEnrollment 3 2 2; Main.mkEnrollment 4 2 1].

(** A second registration, and the table with Ana and Bob in it. *)
Definition bob : StudentExam.StudentCreate :=
  StudentExam.mkStudentCreate "Bob" "b@x.com" "hunter2-hunter2".

Definition bob_salt : string := "Xo5vq1Fb0aZr3Ke9LmT7ue".

Definition bob_row : StudentExam.Student :=
  StudentExam.mkStudent
    2 "Bob" "b@x.com"
    (Passlib.Bcrypt "2b" 12 bob_salt (Passlib.DigestOf "hunter2-hunter2"))
    true.

Definition carol : StudentExam.StudentCreate :=
  StudentExam.mkStudentCreate "Carol" "c@x.com" "correct horse".

Definition ana_token : Jose.token :=
  Jose.encode (issued_claims t0 "a@x.com" 60)
              StudentExam.SECRET_KEY StudentExam.ALGORITHM.

(** Case analysis on the first integer comparison of the goal. *)
Ltac case_ltb :=
  match goal with
  | |- context [?a <? ?b] => destruct (Z.ltb_spec a b)
  end.

(* ================================================================== *)
(** ** The models on concrete values *)
(* ================================================================== *)

Example scenario_register :
  StudentExam.post_auth_register [] ana_salt ana =
  ([ana_row], Return (StudentExam.mkStudentOut 1 "Ana" "a@x.com")).
Proof. reflexivity. Qed.

Example scenario_register_again :
  StudentExam.post_auth_register [ana_row] ana_salt ana =
  ([ana_row], Raise (HTTPException 400 "Email already registered" [])).
Proof. reflexivity. Qed.

Example scenario_login_wrong_password :
  StudentExam.login [ana_row] t0 (StudentExam.mkForm "a@x.com" "wrong") =
  Raise (HTTPException 401 "Incorrect email or password"
                       [("WWW-Authenticate", "Bearer")]).
Proof. reflexivity. Qed.

Example scenario_login :
  StudentExam.login [ana_row] t0 (StudentExam.mkForm "a@x.com" "secret123") =
  Return (StudentExam.mkToken ana_token "bearer").
Proof. reflexivity. Qed.

Example scenario_me :
  StudentExam.get_current_student_info [ana_row] t0 ana_token =
  Return (StudentExam.mkStudentOut 1 "Ana" "a@x.com").
Proof. reflexivity. Qed.

Example scenario_me_two_hours_later :
  StudentExam.get_current_student_info
    [ana_row] (t0 + 120 * Datetime.us_per_minute) ana_token =
  Raise StudentExam.credentials_exception.
Proof. reflexivity. Qed.

Example scenario_me_corrupted :
  StudentExam.get_current_student_info
    [ana_row] t0 (Jose.NotCompact "eyJhbGciOi") =
  Raise StudentExam.credentials_exception.
Proof. reflexivity. Qed.

Example scenario_enroll :
  Main.enroll school_before (Main.mkEnrollRequest 1 1) =
  (school,
   Return (JObj [("enrolled", JBool true); ("student_id", JInt 1);
                 ("course_id", JInt 1)])).
Proof. reflexivity. Qed.

Example scenario_enroll_unknown_course :
  Main.enroll (Main.mkDatabase [Main.mkStudent 1 "Ana"] [] [])
              (Main.mkEnrollRequest 1 7) =
  (Main.mkDatabase [Main.mkStudent 1 "Ana"] [] [],
   Raise (HTTPException 404 "Course not found" [])).
Proof. reflexivity. Qed.

Example int_of_str_plain : Python.int_of_str " 1_000 " = Some 1000.
Proof. reflexivity. Qed.

Example int_of_str_negative : Python.int_of_str "-42" = Some (-42).
Proof. reflexivity. Qed.

Example int_of_str_rejects : Python.int_of_str "12a" = None.
Proof. reflexivity. Qed.

Example timestamp_int_2026 :
  Datetime.timestamp_int 1793700000999999 = 1793700000.
Proof. reflexivity. Qed.

Example timestamp_int_rounds_up_in_9000 :
  Datetime.timestamp_int 221845392000999999 = 221845392001.
Proof. reflexivity. Qed.

(* ================================================================== *)
(** ** Facts about the library models *)
(* ================================================================== *)

Section DatetimeFacts.
Import Datetime.

(** [int(t.timestamp())] is the whole second at or before [t], or the
    next one. *)
Lemma timestamp_int_bounds (t : datetime) :
  timegm_utc t <= timestamp_int t <= timegm_utc t + 1.
Proof.
  unfold timestamp_int, timegm_utc, us_per_second.
  pose proof (Z.div_mod t 1000000 ltac:(lia)) as Ht.
  pose proof (Z.mod_pos_bound t 1000000 ltac:(lia)) as Hr.
  pose proof (Z.div_mod (Z.abs t) 1000000 ltac:(lia)) as Hn.
  pose proof (Z.mod_pos_bound (Z.abs t) 1000000 ltac:(lia)) as Hf.
  destruct (rounds_up _ _) eqn:Hup.
  - unfold rounds_up in Hup.
    apply andb_prop in Hup as [Hup _]. apply andb_prop in Hup as [_ Hfrac].
    apply Z.ltb_lt in Hfrac.
    destruct (Z.sgn_spec t) as [[? ->]|[[? ->]|[? ->]]]; lia.
  - destruct (Z.sgn_spec t) as [[? ->]|[[? ->]|[? ->]]]; lia.
Qed.

Lemma timegm_utc_mono (t t' : datetime) :
  t <= t' -> timegm_utc t <= timegm_utc t'.
Proof. intros H. apply Z.div_le_mono; [reflexivity | exact H]. Qed.

Lemma timegm_utc_shift (t k : Z) :
  timegm_utc (t + k * us_per_minute) = timegm_utc t + 60 * k.
Proof.
  unfold timegm_utc, us_per_minute, us_per_second.
  replace (t + k * (60 * 1000000)) with (t + (60 * k) * 1000000) by lia.
  apply Z.div_add. lia.
Qed.

(** A delta between two dates is far below the day limit of
    [timedelta]. *)
Lemma timedelta_minutes_in_range (t m : Z) :
  in_range t = true ->
  in_range (t + m * us_per_minute) = true ->
  timedelta_minutes m = Return (m * us_per_minute).
Proof.
  unfold in_range, timedelta_minutes. intros H1 H2.
  apply andb_prop in H1 as [H1a H1b]. apply andb_prop in H2 as [H2a H2b].
  apply Z.leb_le in H1a, H1b, H2a, H2b.
  set (us := m * us_per_minute) in *.
  assert (Hlo : - max_delta_days <= us / us_per_day).
  { apply Z.div_le_lower_bound; [reflexivity|].
    unfold min_us, max_us, us_per_day, us_per_second, max_delta_days in *.
    lia. }
  assert (Hhi : us / us_per_day <= max_delta_days).
  { apply Z.div_le_upper_bound; [reflexivity|].
    unfold min_us, max_us, us_per_day, us_per_second, max_delta_days in *.
    lia. }
  apply Z.leb_le in Hlo, Hhi. rewrite Hlo, Hhi. reflexivity.
Qed.

End DatetimeFacts.

Section JoseFacts.
Import Jose.

(** What [jwt.decode] makes of a token that [jwt.encode] built under the
    same key from a subject and two integer time claims. *)
Lemma decode_encode_same_key (key alg sub : string) (iat exp : Z)
      (now : Datetime.datetime) :
  alg <> "" ->
  let claims := [("sub", JStr sub); ("iat", JInt iat); ("exp", JInt exp)] in
  decode (encode claims key alg) key [alg] now =
  if exp <? Datetime.timegm_utc now then Raise ExpiredSignatureError
  else Return claims.
Proof.
  intros Halg claims. unfold decode, encode, jws_sign, jws_verify.
  cbn [dict_lookup String.eqb Ascii.eqb Bool.eqb existsb sig_matches].
  apply String.eqb_neq in Halg. rewrite Halg.
  rewrite !String.eqb_refl. cbn [negb orb andb].
  unfold validate_claims, validate_iat, validate_nbf, validate_exp,
    validate_aud, validate_str_claim, validate_at_hash, dict_mem, claims.
  cbn [dict_lookup String.eqb Ascii.eqb Bool.eqb int_claim Python.int bind].
  destruct (exp <? Datetime.timegm_utc now); reflexivity.
Qed.


(** Padding: a key of at most a block and the same key followed by a NUL
    byte sign alike. *)
Lemma strip_nuls_snoc (key : string) :
  strip_nuls (key ++ String zero "") = strip_nuls key.
Proof.
  induction key as [|c key IH]; cbn [append strip_nuls]; [reflexivity|].
  rewrite IH. reflexivity.
Qed.

End JoseFacts.

(* ================================================================== *)
(** ** Tokens: issue and verify *)
(* ================================================================== *)

Section TokenFacts.
Import StudentExam.

(** Issuing succeeds when the expiry is a date the [datetime] type has. *)
Lemma create_access_token_in_range (now : Datetime.datetime)
      (subject : string) (m : Z) :
  Datetime.in_range now = true ->
  Datetime.in_range (now + m * Datetime.us_per_minute) = true ->
  create_access_token now subject m =
  Return (Jose.encode (issued_claims now subject m) SECRET_KEY ALGORITHM).
Proof.
  intros Hnow Hexp. unfold create_access_token.
  rewrite (timedelta_minutes_in_range now m Hnow Hexp). cbn [bind].
  unfold Datetime.add. rewrite Hexp. reflexivity.
Qed.

(** Issuing fails when it is not. *)
Lemma create_access_token_overflow (now : Datetime.datetime)
      (subject : string) (m : Z) :
  Datetime.in_range (now + m * Datetime.us_per_minute) = false ->
  create_access_token now subject m = Raise OverflowError.
Proof.
  intros Hexp. unfold create_access_token, Datetime.timedelta_minutes.
  destruct (_ && _); cbn [bind]; [|reflexivity].
  unfold Datetime.add. rewrite Hexp. reflexivity.
Qed.

Lemma ALGORITHM_nonempty : ALGORITHM <> "".
Proof. discriminate. Qed.

(** The [try] block on a token of this service: the expiry decides. *)
Lemma decode_subject_encoded (now : Datetime.datetime) (sub : string)
      (iat exp : Z) :
  decode_subject now
    (Jose.encode [("sub", JStr sub); ("iat", JInt iat); ("exp", JInt exp)]
                 SECRET_KEY ALGORITHM) =
  if exp <? Datetime.timegm_utc now then Raise credentials_exception
  else Return (JStr sub).
Proof.
  unfold decode_subject.
  rewrite (decode_encode_same_key SECRET_KEY ALGORITHM sub iat exp now
             ALGORITHM_nonempty).
  destruct (exp <? Datetime.timegm_utc now); reflexivity.
Qed.

End TokenFacts.

(** C1 (as amended): for every subject and every positive [ttl_minutes]
    whose expiry instant is a date the [datetime] type can hold,
    [create_access_token] returns a token, and verifying that token within
    the minute after it was issued returns exactly the subject. *)
Theorem issue_then_verify_returns_subject :
  forall (subject : string) (ttl_minutes : Z) (now now' : Datetime.datetime),
    0 < ttl_minutes ->
    Datetime.in_range now = true ->
    Datetime.in_range (now + ttl_minutes * Datetime.us_per_minute) = true ->
    now <= now' < now + Datetime.us_per_minute ->
    exists token,
      StudentExam.create_access_token now subject ttl_minutes = Return token /\
      StudentExam.decode_subject now' token = Return (JStr subject).
Proof.
  intros subject ttl now now' Hpos Hnow Hexp [Hle Hlt].
  eexists. split.
  - apply create_access_token_in_range; assumption.
  - unfold issued_claims. rewrite decode_subject_encoded.
    pose proof (timestamp_int_bounds
                  (now + ttl * Datetime.us_per_minute)) as [Hlo _].
    rewrite timegm_utc_shift in Hlo.
    assert (Hnow' : Datetime.timegm_utc now' <= Datetime.timegm_utc now + 60).
    { replace (Datetime.timegm_utc now + 60)
        with (Datetime.timegm_utc (now + 1 * Datetime.us_per_minute))
        by (rewrite timegm_utc_shift; lia).
      apply timegm_utc_mono. lia. }
    case_ltb; [lia | reflexivity].
Qed.

(** C1, witness: a 60-minute token issued and verified at the same
    instant of 2026. *)
Lemma issue_then_verify_witness :
  exists token,
    StudentExam.create_access_token t0 "a@x.com" 60 = Return token /\
    StudentExam.decode_subject t0 token = Return (JStr "a@x.com").
Proof.
  apply (issue_then_verify_returns_subject "a@x.com" 60 t0 t0).
  - lia.
  - reflexivity.
  - reflexivity.
  - unfold Datetime.us_per_minute, Datetime.us_per_second. lia.
Defined.

(** C1, counterexample: ten thousand million minutes from 2026 lie beyond
    the year 9999; issuing raises [OverflowError] and there is no token to
    verify. *)
Lemma issue_overflows_for_large_ttl :
  StudentExam.create_access_token t0 "a@x.com" 10000000000
  = Raise OverflowError.
Proof. reflexivity. Qed.

Section VerifyFacts.
Import StudentExam.

Lemma decode_unparseable (token : Jose.token) (key : string)
      (algs : list string) (now : Datetime.datetime) :
  unparseable token = true ->
  Jose.decode token key algs now = Raise JWTError.
Proof.
  unfold Jose.decode, Jose.jws_verify.
  destruct token as [header body sig | s]; [| reflexivity].
  intros Hbad.
  destruct (dict_lookup header "alg") as [[ | | |alg| | | ]|];
    try reflexivity.
  destruct (alg =? "")%string; [reflexivity|].
  destruct (negb _); [reflexivity|].
  destruct (Jose.sig_matches _ _ _); [|reflexivity].
  destruct body as [[ | | | | | | ]|]; try reflexivity; discriminate Hbad.
Qed.


(** Any python-jose error leaves the [try] block as the 401. *)
Lemma decode_subject_JWTError (now : Datetime.datetime)
      (token : Jose.token) (e : exn) :
  Jose.decode token SECRET_KEY [ALGORITHM] now = Raise e ->
  is_JWTError e = true ->
  decode_subject now token = Raise credentials_exception.
Proof. unfold decode_subject. intros -> ->. reflexivity. Qed.

Lemma decode_subject_missing (now : Datetime.datetime)
      (token : Jose.token) (claims : dict) :
  Jose.decode token SECRET_KEY [ALGORITHM] now = Return claims ->
  dict_lookup claims "sub" = None ->
  decode_subject now token = Raise credentials_exception.
Proof. unfold decode_subject. intros -> ->. reflexivity. Qed.

(** A [bind] that returns has returned at its first step. *)
Lemma bind_Return {A B : Type} (r : result A) (k : A -> result B) (b : B) :
  bind r k = Return b -> exists a, r = Return a /\ k a = Return b.
Proof.
  destruct r as [a|e]; cbn [bind]; [|discriminate].
  intros H. exists a. split; [reflexivity | exact H].
Qed.

(** Claims that [jwt.decode] returns carry a [str] subject or none. *)
Lemma decode_returns_str_subject (token : Jose.token) (key : string)
      (algs : list string) (now : Datetime.datetime) (claims : dict) :
  Jose.decode token key algs now = Return claims ->
  dict_lookup claims "sub" = None \/
  exists e, dict_lookup claims "sub" = Some (JStr e).
Proof.
  unfold Jose.decode.
  destruct (Jose.jws_verify token key algs) as [[[ | | | | |m| ]|]|e];
    try discriminate; [|destruct e; discriminate].
  intros H. apply bind_Return in H as ([] & Hval & [= ->]).
  unfold Jose.validate_claims in Hval.
  do 4 (apply bind_Return in Hval as ([] & _ & Hval)).
  apply bind_Return in Hval as ([] & Hsub & _).
  unfold Jose.validate_str_claim in Hsub.
  destruct (dict_lookup claims "sub") as [[ | | |e| | | ]|];
    try discriminate; [right; exists e | left]; reflexivity.
Qed.

(** The [try] block leaves a [str] in [email]: the branch of
    [get_current_student] for other values is never taken. *)
Lemma decode_subject_returns_str (now : Datetime.datetime)
      (token : Jose.token) (v : json) :
  decode_subject now token = Return v -> exists e, v = JStr e.
Proof.
  unfold decode_subject.
  destruct (Jose.decode token SECRET_KEY [ALGORITHM] now)
    as [claims|e] eqn:Hdec; [|destruct (is_JWTError e); discriminate].
  destruct (decode_returns_str_subject _ _ _ _ _ Hdec) as [-> | [e ->]];
    [discriminate|].
  intros [= <-]. exists e. reflexivity.
Qed.

(** The dependency stops where the [try] block raises. *)
Lemma get_current_student_raise (db : Session) (now : Datetime.datetime)
      (token : Jose.token) (e : exn) :
  decode_subject now token = Raise e ->
  get_current_student db now token = Raise e.
Proof. unfold get_current_student. intros ->. reflexivity. Qed.

Lemma get_current_student_subject (db : Session) (now : Datetime.datetime)
      (token : Jose.token) (e : string) :
  decode_subject now token = Return (JStr e) ->
  get_current_student db now token = lookup_outcome db e.
Proof. unfold get_current_student, lookup_outcome. intros ->. reflexivity. Qed.








End VerifyFacts.

(** C4 (as amended): verification raises the 401 credentials exception,
    before any account lookup and whatever the accounts are, whenever the
    token's structure cannot be parsed and whenever the decoded claims have
    no subject.  A well-signed unexpired token whose subject is the empty
    string is not rejected by verification: the empty subject is returned
    and the request is decided by the account lookup for it. *)
Theorem malformed_token_is_rejected :
  (forall (db : StudentExam.Session) (now : Datetime.datetime)
          (token : Jose.token),
      unparseable token = true \/
      (exists claims,
          Jose.decode token StudentExam.SECRET_KEY [StudentExam.ALGORITHM] now
            = Return claims /\
          dict_lookup claims "sub" = None) ->
      StudentExam.decode_subject now token
        = Raise StudentExam.credentials_exception /\
      StudentExam.get_current_student db now token
        = Raise StudentExam.credentials_exception) /\
  (forall (db : StudentExam.Session) (now : Datetime.datetime) (iat exp : Z),
      Datetime.timegm_utc now <= exp ->
      let token :=
        Jose.encode [("sub", JStr ""); ("iat", JInt iat); ("exp", JInt exp)]
                    StudentExam.SECRET_KEY StudentExam.ALGORITHM in
      StudentExam.decode_subject now token = Return (JStr "") /\
      StudentExam.get_current_student db now token = lookup_outcome db "").
Proof.
  split.
  - intros db now token H.
    assert (Hraise : StudentExam.decode_subject now token
                     = Raise StudentExam.credentials_exception).
    { destruct H as [Hbad | (claims & Hdec & Hsub)].
      - eapply decode_subject_JWTError;
          [apply decode_unparseable; exact Hbad | reflexivity].
      - eapply decode_subject_missing; eassumption. }
    split; [exact Hraise | apply get_current_student_raise; exact Hraise].
  - intros db now iat exp Hexp token.
    assert (Hsub : StudentExam.decode_subject now token = Return (JStr "")).
    { unfold token. rewrite decode_subject_encoded.
      case_ltb; [lia | reflexivity]. }
    split; [exact Hsub | apply get_current_student_subject; exact Hsub].
Qed.

(** C4, witness: a string that is no token at all, and a token of 2026
    with an empty subject that is good for an hour. *)
Lemma malformed_token_witness :
  (StudentExam.decode_subject t0 (Jose.NotCompact "garbage")
     = Raise StudentExam.credentials_exception /\
   StudentExam.get_current_student [] t0 (Jose.NotCompact "garbage")
     = Raise StudentExam.credentials_exception) /\
  (StudentExam.decode_subject t0
     (Jose.encode [("sub", JStr ""); ("iat", JInt 1793700000);
                   ("exp", JInt 1793703600)]
                  StudentExam.SECRET_KEY StudentExam.ALGORITHM)
     = Return (JStr "") /\
   StudentExam.get_current_student [] t0
     (Jose.encode [("sub", JStr ""); ("iat", JInt 1793700000);
                   ("exp", JInt 1793703600)]
                  StudentExam.SECRET_KEY StudentExam.ALGORITHM)
     = lookup_outcome [] "").
Proof.
  split.
  - apply (proj1 malformed_token_is_rejected
             [] t0 (Jose.NotCompact "garbage")).
    left. reflexivity.
  - apply (proj2 malformed_token_is_rejected
             [] t0 1793700000 1793703600).
    vm_compute. discriminate.
Defined.

(** C4, counterexample: the token the service itself issues for the empty
    subject passes verification, which returns the empty subject. *)
Lemma empty_subject_passes_verification :
  exists token,
    StudentExam.create_access_token t0 "" 60 = Return token /\
    StudentExam.decode_subject t0 token = Return (JStr "").
Proof. eexists. split; reflexivity. Qed.

(** C5 (as amended): a token the service issued is refused as expired
    exactly when the current time, in whole seconds, is strictly greater
    than its [exp] claim; it is accepted while the current second is at or
    before [exp], the second of expiry included.  A token issued with
    [ttl_minutes = -1] is refused as expired at every later instant. *)
Theorem token_expires_strictly_after_exp :
  forall (subject : string) (ttl_minutes : Z) (now now' : Datetime.datetime),
    Datetime.in_range now = true ->
    Datetime.in_range (now + ttl_minutes * Datetime.us_per_minute) = true ->
    exists token,
      StudentExam.create_access_token now subject ttl_minutes = Return token /\
      let exp := Datetime.timestamp_int
                   (now + ttl_minutes * Datetime.us_per_minute) in
      (Jose.decode token StudentExam.SECRET_KEY [StudentExam.ALGORITHM] now'
         = Raise ExpiredSignatureError <-> exp < Datetime.timegm_utc now') /\
      (exp < Datetime.timegm_utc now' ->
       StudentExam.decode_subject now' token
         = Raise StudentExam.credentials_exception) /\
      (Datetime.timegm_utc now' <= exp ->
       StudentExam.decode_subject now' token = Return (JStr subject)) /\
      (ttl_minutes = -1 -> now <= now' ->
       Jose.decode token StudentExam.SECRET_KEY [StudentExam.ALGORITHM] now'
         = Raise ExpiredSignatureError).
Proof.
  intros subject ttl now now' Hnow Hexp.
  eexists. split; [apply create_access_token_in_range; assumption|].
  intros exp. unfold issued_claims. fold exp.
  rewrite decode_subject_encoded.
  rewrite (decode_encode_same_key _ _ _ _ _ _ ALGORITHM_nonempty).
  assert (Hminus : ttl = -1 -> now <= now' -> exp < Datetime.timegm_utc now').
  { intros -> Hle.
    pose proof (timestamp_int_bounds
                  (now + -1 * Datetime.us_per_minute)) as [_ Hhi].
    rewrite timegm_utc_shift in Hhi.
    pose proof (timegm_utc_mono now now' Hle). unfold exp. lia. }
  case_ltb; repeat split; try reflexivity; try lia; intros; discriminate.
Qed.

(** C5, witness: a token issued with [ttl_minutes = -1] in 2026 and read
    at the instant of its issue. *)
Lemma token_expiry_witness :
  exists token,
    StudentExam.create_access_token t0 "a@x.com" (-1) = Return token /\
    let exp := Datetime.timestamp_int (t0 + -1 * Datetime.us_per_minute) in
    (Jose.decode token StudentExam.SECRET_KEY [StudentExam.ALGORITHM] t0
       = Raise ExpiredSignatureError <-> exp < Datetime.timegm_utc t0) /\
    (exp < Datetime.timegm_utc t0 ->
     StudentExam.decode_subject t0 token
       = Raise StudentExam.credentials_exception) /\
    (Datetime.timegm_utc t0 <= exp ->
     StudentExam.decode_subject t0 token = Return (JStr "a@x.com")) /\
    (-1 = -1 -> t0 <= t0 ->
     Jose.decode token StudentExam.SECRET_KEY [StudentExam.ALGORITHM] t0
       = Raise ExpiredSignatureError).
Proof.
  apply (token_expires_strictly_after_exp "a@x.com" (-1) t0 t0);
    reflexivity.
Defined.

(** C5, counterexample: at the very second of expiry, and throughout it,
    the current time is at or past [expires_at] and the token is still
    accepted. *)
Lemma token_accepted_at_expiry_second :
  exists token,
    StudentExam.create_access_token t0 "a@x.com" 1 = Return token /\
    dict_lookup (issued_claims t0 "a@x.com" 1) "exp"
      = Some (JInt 1793700060) /\
    Datetime.timegm_utc 1793700060000000 = 1793700060 /\
    StudentExam.decode_subject 1793700060000000 token
      = Return (JStr "a@x.com") /\
    StudentExam.decode_subject 1793700060999999 token
      = Return (JStr "a@x.com").
Proof. eexists. repeat split; reflexivity. Qed.




(** The other ways of C8, each on a token for Ana: no signature at all
    under the algorithm "none", a token not valid before tomorrow, a token
    without subject, and a token for an email nobody registered. *)
Example unauthenticated_algorithm_none :
  StudentExam.get_current_student
    [ana_row] t0
    (Jose.Compact [("alg", JStr "none"); ("typ", JStr "JWT")]
                  (Jose.JsonText (JObj (issued_claims t0 "a@x.com" 60)))
                  (Jose.OtherBytes ""))
  = Raise StudentExam.credentials_exception.
Proof. reflexivity. Qed.

Example unauthenticated_not_yet_valid :
  StudentExam.get_current_student
    [ana_row] t0
    (Jose.encode [("sub", JStr "a@x.com"); ("nbf", JInt 1793786400)]
                 StudentExam.SECRET_KEY StudentExam.ALGORITHM)
  = Raise StudentExam.credentials_exception.
Proof. reflexivity. Qed.

Example unauthenticated_no_subject :
  StudentExam.get_current_student
    [ana_row] t0
    (Jose.encode [("iat", JInt 1793700000); ("exp", JInt 1793703600)]
                 StudentExam.SECRET_KEY StudentExam.ALGORITHM)
  = Raise StudentExam.credentials_exception.
Proof. reflexivity. Qed.

Example unauthenticated_unknown_account :
  StudentExam.get_current_student
    [ana_row] t0
    (Jose.encode (issued_claims t0 "nobody@x.com" 60)
                 StudentExam.SECRET_KEY StudentExam.ALGORITHM)
  = Raise StudentExam.credentials_exception.
Proof. reflexivity. Qed.

(** A [float] where the seconds of [exp] belong: a finite one is cut to
    its whole seconds, an infinite one is an [OverflowError] that nothing
    catches. *)
Example float_expiry_is_cut :
  StudentExam.get_current_student
    [ana_row] t0
    (Jose.encode [("sub", JStr "a@x.com");
                  ("exp", JFloat (Finite 3587407201 (-1)))]
                 StudentExam.SECRET_KEY StudentExam.ALGORITHM)
  = Return ana_row.
Proof. reflexivity. Qed.

Example infinite_expiry_overflows :
  StudentExam.get_current_student
    [ana_row] t0
    (Jose.encode [("sub", JStr "a@x.com"); ("exp", JFloat (Infinity false))]
                 StudentExam.SECRET_KEY StudentExam.ALGORITHM)
  = Raise OverflowError.
Proof. reflexivity. Qed.

(* ================================================================== *)
(** ** Passwords, registration and login *)
(* ================================================================== *)

Section PasswordFacts.
Import StudentExam.

Lemma prepare_acceptable (p : string) :
  acceptable_password p = true ->
  Passlib.prepare_secret p = Return (Passlib.truncate p).
Proof.
  unfold acceptable_password, Passlib.prepare_secret. intros H.
  apply andb_prop in H as [Hlen Hnul].
  apply Z.leb_le in Hlen. apply negb_true_iff in Hnul.
  case_ltb; [lia|]. rewrite Hnul. reflexivity.
Qed.

Lemma get_password_hash_acceptable (salt p : string) :
  acceptable_password p = true ->
  get_password_hash salt p =
  Return (Passlib.Bcrypt Passlib.default_ident Passlib.default_rounds salt
                         (Passlib.DigestOf (Passlib.truncate p))).
Proof.
  intros H. unfold get_password_hash, Passlib.hash.
  rewrite (prepare_acceptable p H). reflexivity.
Qed.

(** The hashing raises one of two passlib errors, or returns a
    well-formed hash. *)
Lemma get_password_hash_raises (salt p : string) (e : exn) :
  get_password_hash salt p = Raise e ->
  e = PasswordSizeError \/ e = PasswordValueError.
Proof.
  unfold get_password_hash, Passlib.hash, Passlib.prepare_secret.
  destruct (_ <? _); cbn [bind]; [intros [= <-]; left; reflexivity|].
  destruct (Passlib.contains_nul p); cbn [bind];
    [intros [= <-]; right; reflexivity | discriminate].
Qed.

Lemma get_password_hash_well_formed (salt p : string)
      (h : Passlib.hash_string) :
  get_password_hash salt p = Return h -> well_formed_hash h = true.
Proof.
  unfold get_password_hash, Passlib.hash.
  destruct (Passlib.prepare_secret p); cbn [bind]; [|discriminate].
  intros [= <-]. reflexivity.
Qed.

(** Against a well-formed hash, a password the handler takes is answered
    with a boolean. *)
Lemma verify_password_answers (p : string) (h : Passlib.hash_string) :
  acceptable_password p = true ->
  well_formed_hash h = true ->
  exists b, verify_password p h = Return b.
Proof.
  intros Hp Hh. unfold verify_password, Passlib.verify.
  destruct h as [ident rounds salt chk | s | s]; try discriminate Hh.
  rewrite (prepare_acceptable p Hp). cbn [bind]. eexists. reflexivity.
Qed.

Lemma email_taken_In (db : Session) (e : string) :
  email_taken db e = true <-> In e (map email db).
Proof.
  unfold email_taken. induction db as [|r db IH]; cbn [existsb map In].
  - split; [discriminate | contradiction].
  - rewrite orb_true_iff, IH, String.eqb_eq. reflexivity.
Qed.

Lemma email_taken_filter (db : Session) (e : string) :
  email_taken db e = true <->
  filter (fun s => String.eqb (email s) e) db <> [].
Proof.
  unfold email_taken. induction db as [|r db IH]; cbn [existsb filter].
  - split; [discriminate | intros H; contradiction H; reflexivity].
  - destruct (String.eqb (email r) e); cbn [orb].
    + split; [discriminate | reflexivity].
    + exact IH.
Qed.

(** Rows with pairwise different emails: a lookup by email finds at most
    one. *)
Lemma filter_email_unique (db : Session) (e : string) :
  NoDup (map email db) ->
  filter (fun s => String.eqb (email s) e) db = [] \/
  exists s, filter (fun s => String.eqb (email s) e) db = [s].
Proof.
  induction db as [|r db IH]; intros Hnd; [left; reflexivity|].
  cbn [map] in Hnd. apply NoDup_cons_iff in Hnd as [Hnotin Hnd].
  cbn [filter]. destruct (String.eqb_spec (email r) e) as [Heq|Hne].
  - right. exists r. f_equal.
    destruct (filter _ db) as [|s rest] eqn:Hf; [reflexivity|].
    exfalso. apply Hnotin.
    assert (Hin : In s (filter (fun s => String.eqb (email s) e) db))
      by (rewrite Hf; left; reflexivity).
    apply filter_In in Hin as [Hin Hs]. apply String.eqb_eq in Hs.
    rewrite Heq, <- Hs. apply in_map. exact Hin.
  - apply IH. exact Hnd.
Qed.

End PasswordFacts.

(** What holds of a [students] table whose emails are pairwise different,
    as the unique index on the column has them. *)
Section UniqueEmails.
Import StudentExam.

Variable db : Session.
Hypothesis emails_unique : NoDup (map email db).

Lemma get_student_by_email_unique (e : string) :
  (email_taken db e = true /\
   exists s, In s db /\ email s = e /\
             get_student_by_email db e = Return (Some s)) \/
  (email_taken db e = false /\ get_student_by_email db e = Return None).
Proof.
  unfold get_student_by_email.
  pose proof (email_taken_filter db e) as Htaken.
  destruct (filter_email_unique db e emails_unique) as [Hf | [s Hf]].
  - right. rewrite Hf in *. split; [|reflexivity].
    destruct (email_taken db e); [|reflexivity].
    exfalso. apply (proj1 Htaken); reflexivity.
  - left. split; [apply Htaken; rewrite Hf; discriminate|].
    exists s.
    assert (Hin : In s (filter (fun s => String.eqb (email s) e) db))
      by (rewrite Hf; left; reflexivity).
    apply filter_In in Hin as [Hin Hs]. apply String.eqb_eq in Hs.
    rewrite Hf. repeat split; assumption.
Qed.

(** [register] on an email that is taken. *)
Lemma register_taken (salt : string) (payload : StudentCreate) :
  email_taken db (create_email payload) = true ->
  register db salt payload =
  (db, Raise (HTTPException 400 "Email already registered" [])).
Proof.
  intros Htaken. unfold register.
  destruct (get_student_by_email_unique (create_email payload))
    as [[_ (s & _ & _ & ->)] | [Hfree _]]; [reflexivity | congruence].
Qed.

(** [register] on a free email: the hashing decides. *)
Lemma register_free (salt : string) (payload : StudentCreate) :
  email_taken db (create_email payload) = false ->
  register db salt payload =
  match get_password_hash salt (create_password payload) with
  | Raise e => (db, Raise e)
  | Return h =>
      let row := mkStudent (next_id db) (create_name payload)
                           (create_email payload) h true in
      ((db ++ [row])%list, Return row)
  end.
Proof.
  intros Hfree. unfold register.
  destruct (get_student_by_email_unique (create_email payload))
    as [[Htaken _] | [_ ->]]; [congruence|].
  destruct (get_password_hash salt (create_password payload));
    [|reflexivity].
  unfold add_commit_refresh. rewrite Hfree. reflexivity.
Qed.

(** Registration keeps the emails unique and the hashes well-formed. *)
Lemma register_keeps_emails_unique (salt : string)
      (payload : StudentCreate) :
  NoDup (map email (fst (register db salt payload))).
Proof.
  destruct (email_taken db (create_email payload)) eqn:Htaken.
  - rewrite (register_taken salt payload Htaken). exact emails_unique.
  - rewrite (register_free salt payload Htaken).
    destruct (get_password_hash salt (create_password payload));
      [|exact emails_unique].
    cbn [fst]. rewrite map_app. cbn [map email].
    apply NoDup_app; [exact emails_unique | | ].
    + constructor; [intros [] | constructor].
    + intros e Hin [<- | []].
      apply email_taken_In in Hin. congruence.
Qed.

Lemma register_keeps_hashes_well_formed (salt : string)
      (payload : StudentCreate) :
  forallb (fun s => well_formed_hash (hashed_password s)) db = true ->
  forallb (fun s => well_formed_hash (hashed_password s))
          (fst (register db salt payload)) = true.
Proof.
  intros Hwf.
  destruct (email_taken db (create_email payload)) eqn:Htaken.
  - rewrite (register_taken salt payload Htaken). exact Hwf.
  - rewrite (register_free salt payload Htaken).
    destruct (get_password_hash salt (create_password payload))
      as [h|e] eqn:Hh; [|exact Hwf].
    cbn [fst]. rewrite forallb_app, Hwf. cbn [forallb hashed_password].
    rewrite (get_password_hash_well_formed _ _ _ Hh). reflexivity.
Qed.

(** With a password the hashing takes and hashes as [register] stores
    them, [login] has two outcomes: the one generic 401, whichever of the
    email and the password is wrong, or a bearer token issued for the
    account's email for 60 minutes. *)
Lemma login_acceptable (now : Datetime.datetime)
      (form_data : OAuth2PasswordRequestForm) :
  forallb (fun s => well_formed_hash (hashed_password s)) db = true ->
  acceptable_password (password form_data) = true ->
  login db now form_data = Raise login_exception \/
  exists s,
    In s db /\ email s = username form_data /\
    verify_password (password form_data) (hashed_password s)
      = Return true /\
    login db now form_data =
    (tok <- create_access_token now (email s) 60 ;;
     Return (mkToken tok "bearer")).
Proof.
  intros Hwf Hp. unfold login.
  destruct (get_student_by_email_unique (username form_data))
    as [[_ (s & Hin & Hs & ->)] | [_ ->]]; [|left; reflexivity].
  cbn [bind].
  assert (Hh : well_formed_hash (hashed_password s) = true).
  { rewrite forallb_forall in Hwf. exact (Hwf s Hin). }
  destruct (verify_password_answers _ _ Hp Hh) as [[|] Hv]; rewrite Hv.
  - right. exists s. repeat split; assumption.
  - left. reflexivity.
Qed.

End UniqueEmails.

(** C2 (as amended): for every password the bcrypt handler takes (at most
    4096 bytes, no NUL byte) and every salt, [get_password_hash] returns a
    hash and [verify_password] of the password against it returns true. *)
Theorem verify_of_hash_is_true :
  forall (salt p : string),
    acceptable_password p = true ->
    exists h,
      StudentExam.get_password_hash salt p = Return h /\
      StudentExam.verify_password p h = Return true.
Proof.
  intros salt p Hp. eexists. split.
  - apply get_password_hash_acceptable. exact Hp.
  - unfold StudentExam.verify_password, Passlib.verify.
    rewrite (prepare_acceptable p Hp). cbn [bind].
    rewrite String.eqb_refl. reflexivity.
Qed.

(** C2, witness: the password of the scenario. *)
Lemma verify_of_hash_witness :
  exists h,
    StudentExam.get_password_hash ana_salt "secret123" = Return h /\
    StudentExam.verify_password "secret123" h = Return true.
Proof.
  apply (verify_of_hash_is_true ana_salt "secret123"). reflexivity.
Defined.

(** C2, counterexample: a password with a NUL byte is not hashed at all;
    [get_password_hash] raises and there is no hash to verify against. *)
Lemma hash_refuses_nul_password :
  StudentExam.get_password_hash ana_salt nul_password
  = Raise PasswordValueError.
Proof. reflexivity. Qed.

(** C3 (as amended): for every password, verification against a hash
    string that is malformed does not yield false, it raises: an
    [UnknownHashError] for a string of no configured scheme, a [ValueError]
    of the library for a string that starts like a bcrypt hash and does not
    parse; [verify_password] has no handler for either.  Against a
    well-formed hash, a mismatch of a password the handler takes yields
    false. *)
Theorem verify_password_raises_on_malformed_hash :
  forall (p : string),
    (forall s,
        StudentExam.verify_password p (Passlib.Unidentified s)
          = Raise UnknownHashError) /\
    (forall s,
        StudentExam.verify_password p (Passlib.MalformedBcrypt s)
          = Raise PasswordSizeError \/
        StudentExam.verify_password p (Passlib.MalformedBcrypt s)
          = Raise ValueError) /\
    (forall ident rounds salt chk,
        acceptable_password p = true ->
        chk <> Passlib.DigestOf (Passlib.truncate p) ->
        StudentExam.verify_password p (Passlib.Bcrypt ident rounds salt chk)
          = Return false).
Proof.
  intros p. split; [|split].
  - reflexivity.
  - intros s. unfold StudentExam.verify_password, Passlib.verify.
    destruct (_ <? _); [left | right]; reflexivity.
  - intros ident rounds salt chk Hp Hchk.
    unfold StudentExam.verify_password, Passlib.verify.
    rewrite (prepare_acceptable p Hp). cbn [bind]. f_equal.
    destruct chk as [s | chars]; [|reflexivity].
    apply String.eqb_neq. intros ->. apply Hchk. reflexivity.
Qed.

(** C3, witness: a wrong password against the hash of the right one. *)
Lemma verify_password_mismatch_witness :
  StudentExam.verify_password
    "wrong" (Passlib.Bcrypt "2b" 12 ana_salt (Passlib.DigestOf "secret123"))
  = Return false.
Proof.
  apply (proj2 (proj2 (verify_password_raises_on_malformed_hash "wrong"))).
  - reflexivity.
  - discriminate.
Defined.

(** C3, counterexample: a stored string that is no hash makes
    verification raise instead of answering false. *)
Lemma verify_password_raises_on_garbage :
  StudentExam.verify_password "secret123" (Passlib.Unidentified "not-a-hash")
  = Raise UnknownHashError.
Proof. reflexivity. Qed.

(** C6 (as amended): on a table with unique emails, registration answers
    with the 400 "Email already registered" if and only if an account with
    the given email is persisted, and then leaves the table as it was.
    Otherwise, for a password the hashing takes (at most 4096 bytes, no NUL
    byte), it hashes the password, appends an account with that name, email
    and hash under a fresh id, and returns the account's id, name and email
    only. *)
Theorem register_rejects_duplicate_or_persists :
  forall (db : StudentExam.Session) (salt : string)
         (payload : StudentExam.StudentCreate),
    NoDup (map StudentExam.email db) ->
    (snd (StudentExam.post_auth_register db salt payload)
       = Raise (HTTPException 400 "Email already registered" []) <->
     StudentExam.email_taken db (StudentExam.create_email payload) = true) /\
    (StudentExam.email_taken db (StudentExam.create_email payload) = true ->
     fst (StudentExam.post_auth_register db salt payload) = db) /\
    (StudentExam.email_taken db (StudentExam.create_email payload) = false ->
     acceptable_password (StudentExam.create_password payload) = true ->
     exists h,
       StudentExam.get_password_hash
         salt (StudentExam.create_password payload) = Return h /\
       StudentExam.post_auth_register db salt payload =
       ((db ++ [StudentExam.mkStudent
                  (StudentExam.next_id db)
                  (StudentExam.create_name payload)
                  (StudentExam.create_email payload) h true])%list,
        Return (StudentExam.mkStudentOut
                  (StudentExam.next_id db)
                  (StudentExam.create_name payload)
                  (StudentExam.create_email payload)))).
Proof.
  intros db salt payload Hnd. unfold StudentExam.post_auth_register.
  destruct (StudentExam.email_taken db (StudentExam.create_email payload))
    eqn:Htaken.
  - rewrite (register_taken db Hnd salt payload Htaken). cbn.
    repeat split; intros; try reflexivity; discriminate.
  - rewrite (register_free db Hnd salt payload Htaken).
    split; [|split].
    + split; [|discriminate].
      destruct (StudentExam.get_password_hash _ _) as [h|e] eqn:Hh;
        cbn; [discriminate|].
      destruct (get_password_hash_raises _ _ _ Hh) as [-> | ->];
        discriminate.
    + discriminate.
    + intros _ Hp.
      rewrite (get_password_hash_acceptable salt _ Hp).
      eexists. split; reflexivity.
Qed.

(** C6, witness: the scenario's first registration, on the empty table. *)
Lemma register_witness :
  (snd (StudentExam.post_auth_register [] ana_salt ana)
     = Raise (HTTPException 400 "Email already registered" []) <->
   StudentExam.email_taken [] "a@x.com" = true) /\
  (StudentExam.email_taken [] "a@x.com" = true ->
   fst (StudentExam.post_auth_register [] ana_salt ana) = []) /\
  (StudentExam.email_taken [] "a@x.com" = false ->
   acceptable_password "secret123" = true ->
   exists h,
     StudentExam.get_password_hash ana_salt "secret123" = Return h /\
     StudentExam.post_auth_register [] ana_salt ana =
     ([StudentExam.mkStudent 1 "Ana" "a@x.com" h true],
      Return (StudentExam.mkStudentOut 1 "Ana" "a@x.com"))).
Proof.
  apply (register_rejects_duplicate_or_persists [] ana_salt ana).
  constructor.
Defined.

(** C6, counterexample: no account has the email, and yet nothing is
    hashed, persisted or returned: the password has a NUL byte, the hashing
    raises and the request ends in the server's 500. *)
Lemma register_fails_on_nul_password :
  StudentExam.email_taken [] "a@x.com" = false /\
  StudentExam.post_auth_register
    [] ana_salt (StudentExam.mkStudentCreate "Ana" "a@x.com" nul_password)
  = ([], Raise PasswordValueError) /\
  status_of
    (snd (StudentExam.post_auth_register
            [] ana_salt
            (StudentExam.mkStudentCreate "Ana" "a@x.com" nul_password)))
  = 500.
Proof. repeat split; reflexivity. Qed.

(** C7 (the code departs from the claim): after the scenario's
    registration, a login with a password that holds a NUL byte is answered
    with the generic 401 when the email is unknown, and ends in a
    [PasswordValueError] out of [verify_password], the server's 500, when
    the email is known.  The two failure causes are told apart. *)
Theorem login_tells_known_email_on_nul_password :
  StudentExam.register [] ana_salt ana = ([ana_row], Return ana_row) /\
  StudentExam.login [ana_row] t0
                    (StudentExam.mkForm "nobody@x.com" nul_password)
  = Raise (HTTPException 401 "Incorrect email or password"
                         [("WWW-Authenticate", "Bearer")]) /\
  StudentExam.login [ana_row] t0 (StudentExam.mkForm "a@x.com" nul_password)
  = Raise PasswordValueError /\
  status_of (StudentExam.login [ana_row] t0
                               (StudentExam.mkForm "a@x.com" nul_password))
  = 500.
Proof. repeat split; reflexivity. Qed.

(** C10: for every state of the store, every token that authenticates and
    every term, [GET /me/exams] returns the caller's id, the term, and the
    same two entries, Math 101 and History 201 with their fixed dates and
    grades; the store is read to authenticate and not for the exams. *)
Theorem my_exams_is_fixed :
  forall (db : StudentExam.Session) (now : Datetime.datetime)
         (token : Jose.token) (term : string) (s : StudentExam.Student),
    StudentExam.get_current_student db now token = Return s ->
    StudentExam.get_me_exams db now token term =
    Return
      (JObj [("student_id", JInt (StudentExam.id s));
             ("term", JStr term);
             ("exams",
              JArr [JObj [("course", JStr "Math 101");
                          ("term", JStr term);
                          ("date", JStr "2026-12-15");
                          ("grade", JStr "A")];
                    JObj [("course", JStr "History 201");
                          ("term", JStr term);
                          ("date", JStr "2026-12-18");
                          ("grade", JStr "B+")]])]).
Proof.
  intros db now token term s Hs. unfold StudentExam.get_me_exams.
  rewrite Hs. reflexivity.
Qed.

(** C10, witness: Ana, registered and logged in, asks for her exams. *)
Lemma my_exams_witness :
  StudentExam.get_me_exams [ana_row] t0 ana_token "2026W" =
  Return
    (JObj [("student_id", JInt 1);
           ("term", JStr "2026W");
           ("exams",
            JArr [JObj [("course", JStr "Math 101");
                        ("term", JStr "2026W");
                        ("date", JStr "2026-12-15");
                        ("grade", JStr "A")];
                  JObj [("course", JStr "History 201");
                        ("term", JStr "2026W");
                        ("date", JStr "2026-12-18");
                        ("grade", JStr "B+")]])]).
Proof.
  apply (my_exams_is_fixed [ana_row] t0 ana_token "2026W" ana_row).
  reflexivity.
Defined.

(* ================================================================== *)
(** ** Enrollments *)
(* ================================================================== *)

Section EnrollFacts.
Import Main.

Lemma enrolled_In (db : Database) (sid cid : Z) :
  enrolled db sid cid = true <->
  In (sid, cid) (map pair_of (enrollments db)).
Proof.
  unfold enrolled. induction (enrollments db) as [|e l IH];
    cbn [existsb map In].
  - split; [discriminate | contradiction].
  - rewrite orb_true_iff, IH. unfold same_pair, pair_of.
    rewrite andb_true_iff, !Z.eqb_eq.
    split; (intros [H | H]; [left | right; exact H]).
    + destruct H as [-> ->]. reflexivity.
    + injection H as -> ->. split; reflexivity.
Qed.

(** The insert either refuses and changes nothing, or appends a row
    whose pair is new. *)
Lemma add_commit_Enrollment_unique (db db' : Database) (sid cid : Z) :
  unique_pairs db ->
  add_commit_Enrollment db sid cid = Return db' ->
  unique_pairs db'.
Proof.
  unfold add_commit_Enrollment, unique_pairs. intros Hnd.
  destruct (enrolled db sid cid) eqn:Hen; [discriminate|].
  intros [= <-]. cbn [enrollments].
  rewrite map_app. cbn [map pair_of Enrollment_student_id
                        Enrollment_course_id].
  apply NoDup_app.
  - exact Hnd.
  - constructor; [intros [] | constructor].
  - intros p Hin [<- | []].
    apply enrolled_In in Hin. cbn in Hin. congruence.
Qed.

Lemma step_unique_pairs (db db' : Database) :
  step db db' -> unique_pairs db -> unique_pairs db'.
Proof.
  intros [d n | d sid | d t | d req] Hnd.
  - exact Hnd.
  - unfold delete_student. destruct (get_Student d sid); exact Hnd.
  - exact Hnd.
  - unfold enroll.
    destruct (get_Student d (student_id req)); [|exact Hnd].
    destruct (get_Course d (course_id req)); [|exact Hnd].
    destruct (add_commit_Enrollment d (student_id req) (course_id req))
      as [d'|e] eqn:Hadd; [|exact Hnd].
    exact (add_commit_Enrollment_unique d d' _ _ Hnd Hadd).
Qed.

End EnrollFacts.

(** C9: in every state in which the named student and course exist and a
    row with the same (student_id, course_id) is present, [enroll] raises
    the 400 and leaves the database, the enrollments table with it, exactly
    as it was; and no database the service reaches from the empty one holds
    two enrollment rows with the same pair. *)
Theorem enroll_is_atomic_and_pairs_stay_unique :
  (forall (db : Main.Database) (req : Main.EnrollRequest),
      Main.get_Student db (Main.student_id req) <> None ->
      Main.get_Course db (Main.course_id req) <> None ->
      Main.enrolled db (Main.student_id req) (Main.course_id req) = true ->
      Main.enroll db req =
      (db, Raise (HTTPException 400 "Already enrolled (or invalid)" []))) /\
  (forall db : Main.Database, Main.reachable db -> Main.unique_pairs db).
Proof.
  split.
  - intros db req Hs Hc Hen. unfold Main.enroll.
    destruct (Main.get_Student db (Main.student_id req)); [|congruence].
    destruct (Main.get_Course db (Main.course_id req)); [|congruence].
    unfold Main.add_commit_Enrollment. rewrite Hen. reflexivity.
  - intros db Hreach. induction Hreach as [|db db' _ IH Hstep].
    + constructor.
    + exact (step_unique_pairs db db' Hstep IH).
Qed.

(** C9, witness: Ana is enrolled in Math 101 and asks again. *)
Lemma enroll_twice_witness :
  Main.enroll school (Main.mkEnrollRequest 1 1) =
  (school, Raise (HTTPException 400 "Already enrolled (or invalid)" [])) /\
  Main.unique_pairs school.
Proof.
  split.
  - apply (proj1 enroll_is_atomic_and_pairs_stay_unique
             school (Main.mkEnrollRequest 1 1)).
    + discriminate.
    + discriminate.
    + reflexivity.
  - apply (proj2 enroll_is_atomic_and_pairs_stay_unique).
    apply (Main.reachable_step school_before).
    + apply (Main.reachable_step
               (Main.mkDatabase [Main.mkStudent 1 "Ana"] [] [])).
      * apply (Main.reachable_step Main.empty).
        -- exact Main.reachable_empty.
        -- exact (Main.step_create_student Main.empty "Ana").
      * exact (Main.step_create_course
                 (Main.mkDatabase [Main.mkStudent 1 "Ana"] [] [])
                 "Math 101").
    + exact (Main.step_enroll school_before (Main.mkEnrollRequest 1 1)).
Defined.

(* ================================================================== *)
(** ** main.py beyond enrollment uniqueness *)
(* ================================================================== *)

Section KeyFacts.
Import Main.

(** The key SQLite hands out is above every key present. *)
Lemma next_id_above (ids : list Z) (k : Z) :
  In k ids -> k < next_id ids.
Proof.
  unfold next_id. induction ids as [|i ids IH]; cbn [In fold_right].
  - contradiction.
  - intros [-> | Hin]; [lia | specialize (IH Hin); lia].
Qed.

Lemma next_id_positive (ids : list Z) : 1 <= next_id ids.
Proof.
  unfold next_id. induction ids as [|i ids IH]; cbn [fold_right]; lia.
Qed.

Lemma next_id_fresh (ids : list Z) : ~ In (next_id ids) ids.
Proof. intros Hin. apply next_id_above in Hin. lia. Qed.

Lemma NoDup_snoc {A : Type} (l : list A) (x : A) :
  NoDup l -> ~ In x l -> NoDup (l ++ [x]).
Proof.
  intros Hnd Hx. apply NoDup_app; [exact Hnd | | ].
  - constructor; [intros [] | constructor].
  - intros y Hy [<- | []]. exact (Hx Hy).
Qed.

(** Deleting the rows of one key keeps the keys of the rest apart. *)
Lemma NoDup_keys_delete {A : Type} (key : A -> Z) (gone : Z)
      (rows : list A) :
  NoDup (map key rows) ->
  NoDup (map key (filter (fun a => negb (key a =? gone)) rows)).
Proof.
  intros Hnd. induction rows as [|a rows IH]; [constructor|].
  cbn [map filter] in *. apply NoDup_cons_iff in Hnd as [Hnotin Hnd].
  destruct (negb (key a =? gone)); cbn [map]; [|exact (IH Hnd)].
  constructor; [|exact (IH Hnd)].
  intros Hin. apply Hnotin. apply in_map_iff in Hin as (x & <- & Hx).
  apply filter_In in Hx as [Hx _]. apply in_map. exact Hx.
Qed.

Lemma Forall_map_filter {A B : Type} (P : B -> Prop) (f : A -> B)
      (p : A -> bool) (l : list A) :
  Forall P (map f l) -> Forall P (map f (filter p l)).
Proof.
  rewrite !Forall_forall. intros H y Hy.
  apply in_map_iff in Hy as (x & <- & Hx).
  apply filter_In in Hx as [Hx _]. apply H, in_map, Hx.
Qed.

Lemma Forall_snoc {A : Type} (P : A -> Prop) (l : list A) (x : A) :
  Forall P l -> P x -> Forall P (l ++ [x]).
Proof.
  intros Hl Hx. apply Forall_app. split; [exact Hl | repeat constructor].
  exact Hx.
Qed.

(** A lookup by key in a table that grew by one row. *)
Lemma find_snoc {A : Type} (f : A -> bool) (l : list A) (x : A) :
  find f (l ++ [x]) =
  match find f l with
  | Some y => Some y
  | None => if f x then Some x else None
  end.
Proof.
  induction l as [|a l IH]; cbn [app find]; [reflexivity|].
  destruct (f a); [reflexivity | exact IH].
Qed.

Lemma find_key_None {A : Type} (key : A -> Z) (l : list A) (pk : Z) :
  find (fun a => key a =? pk) l = None <-> ~ In pk (map key l).
Proof.
  induction l as [|a l IH]; cbn [find map In]; [tauto|].
  destruct (Z.eqb_spec (key a) pk) as [Heq|Hne].
  - split; [discriminate | intros H; exfalso; apply H; left; exact Heq].
  - rewrite IH. tauto.
Qed.

Lemma find_key_Some {A : Type} (key : A -> Z) (l : list A) (pk : Z)
      (a : A) :
  find (fun a => key a =? pk) l = Some a -> In a l /\ key a = pk.
Proof.
  intros H. apply find_some in H as [Hin Hk].
  apply Z.eqb_eq in Hk. split; assumption.
Qed.

(** With unique keys, the lookup by the key of a row finds that row. *)
Lemma find_key_In {A : Type} (key : A -> Z) (l : list A) (a : A) :
  NoDup (map key l) -> In a l ->
  find (fun x => key x =? key a) l = Some a.
Proof.
  induction l as [|b l IH]; cbn [map In find]; [contradiction|].
  intros Hnd Hin. apply NoDup_cons_iff in Hnd as [Hnotin Hnd].
  destruct Hin as [-> | Hin]; [rewrite Z.eqb_refl; reflexivity|].
  destruct (Z.eqb_spec (key b) (key a)) as [Heq|_]; [|exact (IH Hnd Hin)].
  exfalso. apply Hnotin. rewrite Heq. apply in_map. exact Hin.
Qed.

(** A lookup by key after the rows of one key were deleted. *)
Lemma find_filter_other {A : Type} (key : A -> Z) (l : list A)
      (gone pk : Z) :
  pk <> gone ->
  find (fun a => key a =? pk) (filter (fun a => negb (key a =? gone)) l) =
  find (fun a => key a =? pk) l.
Proof.
  intros Hne. induction l as [|a l IH]; cbn [filter find]; [reflexivity|].
  destruct (Z.eqb_spec (key a) gone) as [Hg|Hg]; cbn [negb find].
  - destruct (Z.eqb_spec (key a) pk); [congruence | exact IH].
  - destruct (key a =? pk); [reflexivity | exact IH].
Qed.

Lemma find_filter_gone {A : Type} (key : A -> Z) (l : list A) (gone : Z) :
  find (fun a => key a =? gone)
       (filter (fun a => negb (key a =? gone)) l) = None.
Proof.
  induction l as [|a l IH]; cbn [filter find]; [reflexivity|].
  destruct (Z.eqb_spec (key a) gone) as [Hg|Hg]; cbn [negb find];
    [exact IH|].
  destruct (Z.eqb_spec (key a) gone); [contradiction | exact IH].
Qed.

End KeyFacts.

Section ReachableFacts.
Import Main.

Lemma step_keys_unique (db db' : Database) :
  step db db' -> keys_unique db -> keys_unique db'.
Proof.
  unfold keys_unique.
  intros [d n | d sid | d t | d req] (Hs & Hc & He).
  - cbn. rewrite map_app. repeat split; try assumption.
    apply NoDup_snoc; [exact Hs | apply next_id_fresh].
  - unfold delete_student. destruct (get_Student d sid); cbn;
      repeat split; try assumption.
    apply NoDup_keys_delete. exact Hs.
  - cbn. rewrite map_app. repeat split; try assumption.
    apply NoDup_snoc; [exact Hc | apply next_id_fresh].
  - unfold enroll.
    destruct (get_Student d (student_id req)); [|repeat split; assumption].
    destruct (get_Course d (course_id req)); [|repeat split; assumption].
    unfold add_commit_Enrollment.
    destruct (enrolled d (student_id req) (course_id req));
      [repeat split; assumption|].
    cbn. rewrite map_app. repeat split; try assumption.
    apply NoDup_snoc; [exact He | apply next_id_fresh].
Qed.

Lemma step_keys_positive (db db' : Database) :
  step db db' -> keys_positive db -> keys_positive db'.
Proof.
  unfold keys_positive.
  intros [d n | d sid | d t | d req] (Hs & Hc & He).
  - cbn. rewrite map_app. repeat split; try assumption.
    apply Forall_snoc; [exact Hs | apply next_id_positive].
  - unfold delete_student. destruct (get_Student d sid); cbn;
      repeat split; try assumption.
    apply Forall_map_filter. exact Hs.
  - cbn. rewrite map_app. repeat split; try assumption.
    apply Forall_snoc; [exact Hc | apply next_id_positive].
  - unfold enroll.
    destruct (get_Student d (student_id req)); [|repeat split; assumption].
    destruct (get_Course d (course_id req)); [|repeat split; assumption].
    unfold add_commit_Enrollment.
    destruct (enrolled d (student_id req) (course_id req));
      [repeat split; assumption|].
    cbn. rewrite map_app. repeat split; try assumption.
    apply Forall_snoc; [exact He | apply next_id_positive].
Qed.

Lemma reachable_keys_unique (db : Database) :
  reachable db -> keys_unique db.
Proof.
  induction 1 as [|db db' _ IH Hstep].
  - repeat split; constructor.
  - exact (step_keys_unique db db' Hstep IH).
Qed.

Lemma reachable_unique_pairs (db : Database) :
  reachable db -> unique_pairs db.
Proof.
  induction 1 as [|db db' _ IH Hstep].
  - constructor.
  - exact (step_unique_pairs db db' Hstep IH).
Qed.

(** The school of the scenario is a database the service reaches. *)
Lemma school_before_reachable : reachable school_before.
Proof.
  apply (reachable_step (mkDatabase [mkStudent 1 "Ana"] [] [])).
  - apply (reachable_step empty); [exact reachable_empty|].
    exact (step_create_student empty "Ana").
  - exact (step_create_course (mkDatabase [mkStudent 1 "Ana"] [] [])
                              "Math 101").
Qed.

Lemma school_reachable : reachable school.
Proof.
  apply (reachable_step school_before); [exact school_before_reachable|].
  exact (step_enroll school_before (mkEnrollRequest 1 1)).
Qed.

Lemma school_two_reachable : reachable school_two.
Proof.
  pose proof school_reachable as H0.
  pose proof (reachable_step _ _ H0 (step_create_student school "Bob"))
    as H1.
  pose proof (reachable_step _ _ H1 (step_create_course _ "History 201"))
    as H2.
  pose proof (reachable_step _ _ H2 (step_enroll _ (mkEnrollRequest 1 2)))
    as H3.
  pose proof (reachable_step _ _ H3 (step_enroll _ (mkEnrollRequest 2 2)))
    as H4.
  exact (reachable_step _ _ H4 (step_enroll _ (mkEnrollRequest 2 1))).
Qed.

End ReachableFacts.

(** X1: in every database the service reaches from the empty one, the
    primary keys of the students, of the courses and of the enrollments are
    pairwise different within their table, and all of them are positive. *)
Theorem reachable_keys_unique_and_positive :
  forall db : Main.Database,
    Main.reachable db -> keys_unique db /\ keys_positive db.
Proof.
  intros db Hreach. split; [exact (reachable_keys_unique db Hreach)|].
  induction Hreach as [|db db' _ IH Hstep].
  - repeat split; constructor.
  - exact (step_keys_positive db db' Hstep IH).
Qed.

(** X1, witness: the school of the scenario. *)
Lemma reachable_keys_witness : keys_unique school /\ keys_positive school.
Proof.
  apply (reachable_keys_unique_and_positive school). exact school_reachable.
Defined.

(** X2: [create_student] always succeeds; the student it returns carries
    the given name under a key no student had, a lookup by that key on the
    database it leaves returns the student, and the lookup of every other
    key, the courses and the enrollments are as before. *)
Theorem create_student_then_get :
  forall (db : Main.Database) (n : string),
    exists s,
      snd (Main.create_student db n) = Return s /\
      Main.Student_name s = n /\
      Main.get_Student db (Main.Student_id s) = None /\
      Main.get_student (fst (Main.create_student db n)) (Main.Student_id s)
        = Return s /\
      (forall pk, pk <> Main.Student_id s ->
                  Main.get_student (fst (Main.create_student db n)) pk
                  = Main.get_student db pk) /\
      Main.courses (fst (Main.create_student db n)) = Main.courses db /\
      Main.enrollments (fst (Main.create_student db n))
        = Main.enrollments db.
Proof.
  intros db n.
  exists (Main.mkStudent
            (Main.next_id (map Main.Student_id (Main.students db))) n).
  assert (Hfresh : Main.get_Student
                     db (Main.next_id (map Main.Student_id (Main.students db)))
                   = None).
  { apply find_key_None, next_id_fresh. }
  unfold Main.get_student, Main.get_Student in *.
  cbn [Main.create_student fst snd Main.students Main.courses
       Main.enrollments Main.Student_id Main.Student_name].
  repeat split; try reflexivity; try exact Hfresh.
  - rewrite find_snoc, Hfresh. cbn [Main.Student_id].
    rewrite Z.eqb_refl. reflexivity.
  - intros pk Hpk. rewrite find_snoc. cbn [Main.Student_id].
    destruct (find (fun s => Main.Student_id s =? pk) (Main.students db));
      [reflexivity|].
    destruct (Z.eqb_spec
                (Main.next_id (map Main.Student_id (Main.students db))) pk);
      [congruence | reflexivity].
Qed.

(** X3: [delete_student] of a key that SQLite can hold and no student
    has answers 404 and changes nothing.  For a key a student has it
    answers with the key, after which a lookup by that key answers 404,
    every other lookup answers as before, and the courses and the
    enrollments, those of the deleted student included, are untouched. *)
Theorem delete_student_then_get :
  forall (db : Main.Database) (sid : Z),
    (Main.get_Student db sid = None ->
     sqlite_integer sid = true ->
     Main.delete_student db sid =
     (db, Raise (HTTPException 404 "Student not found" []))) /\
    (Main.get_Student db sid <> None ->
     snd (Main.delete_student db sid) = Return (JObj [("deleted", JInt sid)])
     /\
     Main.get_student (fst (Main.delete_student db sid)) sid
       = Raise (HTTPException 404 "Student not found" []) /\
     (forall pk, pk <> sid ->
                 Main.get_student (fst (Main.delete_student db sid)) pk
                 = Main.get_student db pk) /\
     Main.courses (fst (Main.delete_student db sid)) = Main.courses db /\
     Main.enrollments (fst (Main.delete_student db sid))
       = Main.enrollments db).
Proof.
  intros db sid. unfold Main.delete_student. split.
  - intros -> _. reflexivity.
  - destruct (Main.get_Student db sid) as [s|]; [intros _ | congruence].
    unfold Main.get_student, Main.get_Student.
    cbn [fst snd Main.students Main.courses Main.enrollments].
    repeat split.
    + rewrite (find_filter_gone Main.Student_id). reflexivity.
    + intros pk Hpk.
      rewrite (find_filter_other Main.Student_id _ sid pk Hpk). reflexivity.
Qed.

(** X3, witness: key 7 is nobody's in the school of four enrollments;
    then Ana leaves it, and her two enrollment rows stay. *)
Lemma delete_student_witness :
  Main.delete_student school_two 7 =
  (school_two, Raise (HTTPException 404 "Student not found" [])) /\
  (snd (Main.delete_student school_two 1)
     = Return (JObj [("deleted", JInt 1)]) /\
   Main.get_student (fst (Main.delete_student school_two 1)) 1
     = Raise (HTTPException 404 "Student not found" []) /\
   (forall pk, pk <> 1 ->
               Main.get_student (fst (Main.delete_student school_two 1)) pk
               = Main.get_student school_two pk) /\
   Main.courses (fst (Main.delete_student school_two 1))
     = Main.courses school_two /\
   Main.enrollments (fst (Main.delete_student school_two 1))
     = Main.enrollments school_two).
Proof.
  split.
  - apply (proj1 (delete_student_then_get school_two 7)); reflexivity.
  - apply (proj2 (delete_student_then_get school_two 1)). discriminate.
Defined.

Section EnrollMore.
Import Main.

Lemma enrolled_snoc (db : Database) (row : Enrollment) (sid cid : Z) :
  enrolled (mkDatabase (students db) (courses db)
                       (enrollments db ++ [row])%list) sid cid
  = enrolled db sid cid || same_pair sid cid row.
Proof.
  unfold enrolled. cbn [enrollments]. rewrite existsb_app. cbn [existsb].
  rewrite orb_false_r. reflexivity.
Qed.

(** What a successful [enroll] did. *)
Lemma enroll_Return (db : Database) (req : EnrollRequest) (v : json) :
  snd (enroll db req) = Return v ->
  get_Student db (student_id req) <> None /\
  get_Course db (course_id req) <> None /\
  enrolled db (student_id req) (course_id req) = false /\
  fst (enroll db req) =
  mkDatabase (students db) (courses db)
             (enrollments db ++
              [mkEnrollment (next_id (map Enrollment_id (enrollments db)))
                            (student_id req) (course_id req)])%list.
Proof.
  unfold enroll.
  destruct (get_Student db (student_id req)); [|discriminate].
  destruct (get_Course db (course_id req)); [|discriminate].
  unfold add_commit_Enrollment.
  destruct (enrolled db (student_id req) (course_id req)); [discriminate|].
  intros _. repeat split; discriminate.
Qed.

(** The rows of the join, one by one. *)
Lemma joined_courses_In (db : Database) (sid : Z) (c : Course) :
  In c (joined_courses db sid) <->
  In c (courses db) /\ enrolled db sid (Course_id c) = true.
Proof.
  unfold joined_courses, enrolled. rewrite in_flat_map. split.
  - intros (c' & Hc' & Hin). apply in_map_iff in Hin as (e & <- & He).
    split; [exact Hc'|]. apply filter_In in He as [He Hm].
    apply existsb_exists. exists e. split; [exact He|].
    unfold same_pair. apply andb_prop in Hm as [Hcid Hsid].
    rewrite Hcid, Hsid. reflexivity.
  - intros [Hc Hen]. apply existsb_exists in Hen as (e & He & Hm).
    exists c. split; [exact Hc|]. apply in_map_iff. exists e.
    split; [reflexivity|]. apply filter_In. split; [exact He|].
    unfold same_pair in Hm. apply andb_prop in Hm as [Hsid Hcid].
    rewrite Hcid, Hsid. reflexivity.
Qed.

End EnrollMore.

(** X4: when [enroll] succeeds, the students and the courses are as
    before, the enrollments grew by exactly one row, for the requested pair
    under a fresh key; the student is then enrolled in the course, the
    course is among the courses [get_student_courses] lists for the student,
    whoever was enrolled before still is, and the same request sent again
    is answered with the 400 and changes nothing. *)
Theorem enroll_success_effect :
  forall (db : Main.Database) (req : Main.EnrollRequest) (v : json),
    snd (Main.enroll db req) = Return v ->
    let db' := fst (Main.enroll db req) in
    v = JObj [("enrolled", JBool true);
              ("student_id", JInt (Main.student_id req));
              ("course_id", JInt (Main.course_id req))] /\
    Main.students db' = Main.students db /\
    Main.courses db' = Main.courses db /\
    (exists k,
        ~ In k (map Main.Enrollment_id (Main.enrollments db)) /\
        Main.enrollments db' =
        (Main.enrollments db ++
         [Main.mkEnrollment k (Main.student_id req) (Main.course_id req)])%list)
    /\
    Main.enrolled db' (Main.student_id req) (Main.course_id req) = true /\
    (forall sid cid, Main.enrolled db sid cid = true ->
                     Main.enrolled db' sid cid = true) /\
    (exists c swc,
        Main.get_Course db' (Main.course_id req) = Some c /\
        Main.get_student_courses db' (Main.student_id req) = Return swc /\
        In (Main.to_CourseOut c) (Main.StudentWithCourses_courses swc)) /\
    Main.enroll db' req =
    (db', Raise (HTTPException 400 "Already enrolled (or invalid)" [])).
Proof.
  intros db req v Hret db'.
  destruct (enroll_Return db req v Hret) as (Hs & Hc & Hen & Hdb').
  assert (Hv : v = JObj [("enrolled", JBool true);
                         ("student_id", JInt (Main.student_id req));
                         ("course_id", JInt (Main.course_id req))]).
  { revert Hret. unfold Main.enroll.
    destruct (Main.get_Student db (Main.student_id req)); [|congruence].
    destruct (Main.get_Course db (Main.course_id req)); [|congruence].
    unfold Main.add_commit_Enrollment. rewrite Hen. cbn [snd].
    intros [= <-]. reflexivity. }
  assert (Hen' : Main.enrolled db' (Main.student_id req) (Main.course_id req)
                 = true).
  { unfold db'. rewrite Hdb', enrolled_snoc. unfold Main.same_pair.
    cbn [Main.Enrollment_student_id Main.Enrollment_course_id].
    rewrite !Z.eqb_refl. apply orb_true_r. }
  assert (Hs' : Main.get_Student db' (Main.student_id req)
                = Main.get_Student db (Main.student_id req)).
  { unfold db'. rewrite Hdb'. reflexivity. }
  assert (Hc' : Main.get_Course db' (Main.course_id req)
                = Main.get_Course db (Main.course_id req)).
  { unfold db'. rewrite Hdb'. reflexivity. }
  split; [exact Hv|].
  split; [unfold db'; rewrite Hdb'; reflexivity|].
  split; [unfold db'; rewrite Hdb'; reflexivity|].
  split.
  { eexists. split; [apply next_id_fresh|].
    unfold db'. rewrite Hdb'. reflexivity. }
  split; [exact Hen'|].
  split.
  { intros sid cid H. unfold db'. rewrite Hdb', enrolled_snoc, H.
    reflexivity. }
  split.
  { destruct (Main.get_Course db' (Main.course_id req)) as [c|] eqn:Hgc;
      [|congruence].
    unfold Main.get_student_courses.
    destruct (Main.get_Student db' (Main.student_id req)) as [s|];
      [|congruence].
    exists c. eexists. split; [reflexivity|]. split; [reflexivity|].
    cbn [Main.StudentWithCourses_courses]. apply in_map.
    apply joined_courses_In.
    apply (find_key_Some Main.Course_id) in Hgc as [Hin Hk].
    split; [exact Hin | rewrite Hk; exact Hen']. }
  unfold Main.enroll.
  destruct (Main.get_Student db' (Main.student_id req)); [|congruence].
  destruct (Main.get_Course db' (Main.course_id req)); [|congruence].
  unfold Main.add_commit_Enrollment. rewrite Hen'. reflexivity.
Qed.

(** X4, witness: Ana enrolls in Math 101. *)
Lemma enroll_success_witness :
  let db' := fst (Main.enroll school_before (Main.mkEnrollRequest 1 1)) in
  JObj [("enrolled", JBool true); ("student_id", JInt 1);
        ("course_id", JInt 1)] =
  JObj [("enrolled", JBool true);
        ("student_id", JInt (Main.student_id (Main.mkEnrollRequest 1 1)));
        ("course_id", JInt (Main.course_id (Main.mkEnrollRequest 1 1)))] /\
  Main.students db' = Main.students school_before /\
  Main.courses db' = Main.courses school_before /\
  (exists k,
      ~ In k (map Main.Enrollment_id (Main.enrollments school_before)) /\
      Main.enrollments db' =
      (Main.enrollments school_before ++
       [Main.mkEnrollment k (Main.student_id (Main.mkEnrollRequest 1 1))
                          (Main.course_id (Main.mkEnrollRequest 1 1))])%list)
  /\
  Main.enrolled db' (Main.student_id (Main.mkEnrollRequest 1 1))
                (Main.course_id (Main.mkEnrollRequest 1 1)) = true /\
  (forall sid cid, Main.enrolled school_before sid cid = true ->
                   Main.enrolled db' sid cid = true) /\
  (exists c swc,
      Main.get_Course db' (Main.course_id (Main.mkEnrollRequest 1 1))
        = Some c /\
      Main.get_student_courses
        db' (Main.student_id (Main.mkEnrollRequest 1 1)) = Return swc /\
      In (Main.to_CourseOut c) (Main.StudentWithCourses_courses swc)) /\
  Main.enroll db' (Main.mkEnrollRequest 1 1) =
  (db', Raise (HTTPException 400 "Already enrolled (or invalid)" [])).
Proof.
  apply (enroll_success_effect
           school_before (Main.mkEnrollRequest 1 1)
           (JObj [("enrolled", JBool true); ("student_id", JInt 1);
                  ("course_id", JInt 1)])).
  reflexivity.
Defined.

Section ListingFacts.
Import Main.

Lemma step_courses_exist (db db' : Database) :
  step db db' -> courses_exist db -> courses_exist db'.
Proof.
  unfold courses_exist. intros [d n | d sid | d t | d req] H.
  - exact H.
  - unfold delete_student. destruct (get_Student d sid); exact H.
  - cbn [create_course fst enrollments]. intros e He.
    specialize (H e He). unfold get_Course in *. cbn [courses].
    rewrite find_snoc.
    destruct (find _ (courses d)); [discriminate | contradiction].
  - destruct (snd (enroll d req)) as [v|x] eqn:Hret.
    + destruct (enroll_Return d req v Hret) as (_ & Hc & _ & ->).
      cbn [enrollments]. intros e He. apply in_app_or in He as [He | He].
      * exact (H e He).
      * destruct He as [<- | []]. exact Hc.
    + revert Hret. unfold enroll.
      destruct (get_Student d (student_id req)); [|intros _; exact H].
      destruct (get_Course d (course_id req)); [|intros _; exact H].
      destruct (add_commit_Enrollment d (student_id req) (course_id req));
        [discriminate | intros _; exact H].
Qed.

(** With unique pairs, at most one enrollment row joins a course to a
    student. *)
Lemma filter_pair_unique (l : list Enrollment) (sid cid : Z) :
  NoDup (map pair_of l) ->
  Nat.le
    (List.length (filter (fun e => (Enrollment_course_id e =? cid) &&
                                   (Enrollment_student_id e =? sid)) l)) 1.
Proof.
  induction l as [|e l IH]; cbn [map filter]; intros Hnd; [cbn; unfold Nat.le; lia|].
  apply NoDup_cons_iff in Hnd as [Hnotin Hnd]. specialize (IH Hnd).
  destruct ((Enrollment_course_id e =? cid) &&
            (Enrollment_student_id e =? sid)) eqn:Hm; [|exact IH].
  apply andb_prop in Hm as [Hc Hs]. apply Z.eqb_eq in Hc, Hs.
  destruct (filter _ l) as [|e' rest] eqn:Hf; [cbn; unfold Nat.le; lia|].
  exfalso. apply Hnotin.
  assert (Hin : In e' (filter
                         (fun e => (Enrollment_course_id e =? cid) &&
                                   (Enrollment_student_id e =? sid)) l))
    by (rewrite Hf; left; reflexivity).
  apply filter_In in Hin as [Hin Hm'].
  apply andb_prop in Hm' as [Hc' Hs']. apply Z.eqb_eq in Hc', Hs'.
  apply in_map_iff. exists e'. split; [|exact Hin].
  unfold pair_of. congruence.
Qed.

Lemma joined_courses_keys_NoDup (db : Database) (sid : Z) :
  NoDup (map Course_id (courses db)) ->
  unique_pairs db ->
  NoDup (map Course_id (joined_courses db sid)).
Proof.
  unfold joined_courses, unique_pairs. intros Hc Hp.
  induction (courses db) as [|c cs IH]; cbn [flat_map map];
    [constructor|].
  apply NoDup_cons_iff in Hc as [Hnotin Hc]. specialize (IH Hc).
  rewrite map_app.
  pose proof (filter_pair_unique (enrollments db) sid (Course_id c) Hp)
    as Hlen.
  destruct (filter _ (enrollments db)) as [|e [|e' rest]];
    cbn [map app List.length] in *; [exact IH | | unfold Nat.le in Hlen; lia].
  constructor; [|exact IH].
  intros Hin. apply Hnotin.
  apply in_map_iff in Hin as (c' & Hk & Hc').
  apply in_flat_map in Hc' as (c'' & Hc'' & Hin'').
  apply in_map_iff in Hin'' as (_ & -> & _).
  rewrite <- Hk. apply in_map. exact Hc''.
Qed.

End ListingFacts.

(** X5: in every database the service reaches, every enrollment row names
    a course of the courses table: [enroll] checks the course and no
    handler removes one. *)
Theorem reachable_courses_exist :
  forall db : Main.Database, Main.reachable db -> courses_exist db.
Proof.
  intros db Hreach. induction Hreach as [|db db' _ IH Hstep].
  - intros e [].
  - exact (step_courses_exist db db' Hstep IH).
Qed.

(** X5, witness: the school of the scenario. *)
Lemma reachable_courses_witness : courses_exist school.
Proof. apply (reachable_courses_exist school). exact school_reachable. Defined.

(** X6: when [get_student_courses] answers 404, no student has the key;
    and for a key that SQLite can hold and no student has, it answers 404.
    When it returns, it returns the key and the name of the student, and a
    course is in its list exactly when it is a course of the courses table
    that some enrollment row joins to the student. *)
Theorem get_student_courses_lists_enrolled :
  forall (db : Main.Database) (sid : Z),
    (Main.get_student_courses db sid
       = Raise (HTTPException 404 "Student not found" []) ->
     Main.get_Student db sid = None) /\
    (Main.get_Student db sid = None ->
     sqlite_integer sid = true ->
     Main.get_student_courses db sid
       = Raise (HTTPException 404 "Student not found" [])) /\
    (forall swc,
        Main.get_student_courses db sid = Return swc ->
        Main.get_student db sid
          = Return (Main.mkStudent (Main.StudentWithCourses_id swc)
                                   (Main.StudentWithCourses_name swc)) /\
        Main.StudentWithCourses_id swc = sid /\
        (forall co,
            In co (Main.StudentWithCourses_courses swc) <->
            exists c, In c (Main.courses db) /\
                      Main.to_CourseOut c = co /\
                      Main.enrolled db sid (Main.Course_id c) = true)).
Proof.
  intros db sid. unfold Main.get_student_courses, Main.get_student.
  destruct (Main.get_Student db sid) as [s|] eqn:Hs.
  - split; [discriminate|]. split; [discriminate|].
    intros swc [= <-].
    cbn [Main.StudentWithCourses_id Main.StudentWithCourses_name
         Main.StudentWithCourses_courses].
    apply (find_key_Some Main.Student_id) in Hs as [_ Hk].
    split; [destruct s; reflexivity|]. split; [exact Hk|].
    intros co. rewrite in_map_iff. split.
    + intros (c & <- & Hc). apply joined_courses_In in Hc as [Hc Hen].
      exists c. repeat split; assumption.
    + intros (c & Hc & <- & Hen). exists c. split; [reflexivity|].
      apply joined_courses_In. split; assumption.
  - split; [reflexivity|]. split; [reflexivity | discriminate].
Qed.

(** X6, witness: key 7 is nobody's in the school of four enrollments, and
    Bob's answer there is the student of key 2. *)
Lemma get_student_courses_lists_witness :
  Main.get_student_courses school_two 7
    = Raise (HTTPException 404 "Student not found" []) /\
  Main.get_student school_two 2 = Return (Main.mkStudent 2 "Bob").
Proof.
  split.
  - apply (proj1 (proj2 (get_student_courses_lists_enrolled school_two 7)));
      reflexivity.
  - apply (proj2 (proj2 (get_student_courses_lists_enrolled school_two 2))
             (Main.mkStudentWithCourses
                2 "Bob" [Main.mkCourseOut 1 "Math 101";
                         Main.mkCourseOut 2 "History 201"])).
    reflexivity.
Defined.

(** X7: in every database the service reaches, the list of
    [get_student_courses] names no course twice. *)
Theorem get_student_courses_no_duplicates :
  forall (db : Main.Database) (sid : Z) (swc : Main.StudentWithCourses),
    Main.reachable db ->
    Main.get_student_courses db sid = Return swc ->
    NoDup (map Main.CourseOut_id (Main.StudentWithCourses_courses swc)) /\
    NoDup (Main.StudentWithCourses_courses swc).
Proof.
  intros db sid swc Hreach. unfold Main.get_student_courses.
  destruct (Main.get_Student db sid); [|discriminate].
  intros [= <-]. cbn [Main.StudentWithCourses_courses].
  assert (Hk : NoDup (map Main.CourseOut_id
                          (map Main.to_CourseOut
                               (Main.joined_courses db sid)))).
  { rewrite map_map. cbn [Main.to_CourseOut Main.CourseOut_id].
    apply joined_courses_keys_NoDup.
    - exact (proj1 (proj2 (reachable_keys_unique db Hreach))).
    - exact (reachable_unique_pairs db Hreach). }
  split; [exact Hk | exact (NoDup_map_inv _ _ Hk)].
Qed.

(** X7, witness: Ana's two courses in the school of four enrollments. *)
Lemma get_student_courses_witness :
  NoDup (map Main.CourseOut_id [Main.mkCourseOut 1 "Math 101";
                                Main.mkCourseOut 2 "History 201"]) /\
  NoDup [Main.mkCourseOut 1 "Math 101"; Main.mkCourseOut 2 "History 201"].
Proof.
  apply (get_student_courses_no_duplicates
           school_two 1
           (Main.mkStudentWithCourses
              1 "Ana" [Main.mkCourseOut 1 "Math 101";
                       Main.mkCourseOut 2 "History 201"])).
  - exact school_two_reachable.
  - reflexivity.
Defined.

(** X8: the enrollments of a deleted student outlive the student, and
    the key is handed out again when it is the next one in line (as when
    the student with the largest key is deleted): the student created next
    gets the deleted key and, with it, the courses of the deleted
    student. *)
Theorem deleted_key_is_reused_with_its_enrollments :
  forall (db : Main.Database) (sid : Z) (n : string)
         (swc : Main.StudentWithCourses),
    Main.get_student_courses db sid = Return swc ->
    Main.next_id
      (map Main.Student_id
           (Main.students (fst (Main.delete_student db sid)))) = sid ->
    let db1 := fst (Main.delete_student db sid) in
    let db2 := fst (Main.create_student db1 n) in
    Main.get_student_courses db1 sid
      = Raise (HTTPException 404 "Student not found" []) /\
    snd (Main.create_student db1 n) = Return (Main.mkStudent sid n) /\
    Main.get_student_courses db2 sid =
    Return (Main.mkStudentWithCourses
              sid n (Main.StudentWithCourses_courses swc)).
Proof.
  intros db sid n swc Hswc Hnext db1 db2.
  assert (Hs : Main.get_Student db sid <> None).
  { intros Hnone. unfold Main.get_student_courses in Hswc.
    rewrite Hnone in Hswc. discriminate. }
  assert (Hdb1 : db1 = Main.mkDatabase
                         (filter (fun s => negb (Main.Student_id s =? sid))
                                 (Main.students db))
                         (Main.courses db) (Main.enrollments db)).
  { unfold db1, Main.delete_student.
    destruct (Main.get_Student db sid); [reflexivity | congruence]. }
  assert (Hc : Main.courses db1 = Main.courses db)
    by (rewrite Hdb1; reflexivity).
  assert (He : Main.enrollments db1 = Main.enrollments db)
    by (rewrite Hdb1; reflexivity).
  assert (Hgone' : Main.get_Student db1 sid = None).
  { rewrite Hdb1. apply (find_filter_gone Main.Student_id). }
  fold db1 in Hnext.
  split; [unfold Main.get_student_courses; rewrite Hgone'; reflexivity|].
  split; [cbn [Main.create_student snd]; rewrite Hnext; reflexivity|].
  unfold Main.get_student_courses in *.
  destruct (Main.get_Student db sid) as [s|]; [|congruence].
  injection Hswc as <-. cbn [Main.StudentWithCourses_courses].
  assert (Hnew : Main.get_Student db2 sid = Some (Main.mkStudent sid n)).
  { unfold db2, Main.get_Student.
    cbn [Main.create_student fst Main.students].
    rewrite find_snoc. fold (Main.get_Student db1 sid).
    rewrite Hgone', Hnext. cbn [Main.Student_id].
    rewrite Z.eqb_refl. reflexivity. }
  rewrite Hnew. cbn [Main.Student_id Main.Student_name].
  unfold Main.joined_courses, db2.
  cbn [Main.create_student fst Main.courses Main.enrollments].
  rewrite Hc, He. reflexivity.
Qed.

(** X8, witness: Ana leaves the school of the scenario, Bob arrives and
    finds himself in Math 101. *)
Lemma deleted_key_reuse_witness :
  let db1 := fst (Main.delete_student school 1) in
  let db2 := fst (Main.create_student db1 "Bob") in
  Main.get_student_courses db1 1
    = Raise (HTTPException 404 "Student not found" []) /\
  snd (Main.create_student db1 "Bob") = Return (Main.mkStudent 1 "Bob") /\
  Main.get_student_courses db2 1 =
  Return (Main.mkStudentWithCourses
            1 "Bob"
            (Main.StudentWithCourses_courses
               (Main.mkStudentWithCourses
                  1 "Ana" [Main.mkCourseOut 1 "Math 101"]))).
Proof.
  apply (deleted_key_is_reused_with_its_enrollments
           school 1 "Bob"
           (Main.mkStudentWithCourses 1 "Ana"
                                      [Main.mkCourseOut 1 "Math 101"]));
    reflexivity.
Defined.

(** X9: in every database the service reaches, [list_students] and
    [get_student] agree: a student is in the list exactly when the lookup
    by the student's key returns that student. *)
Theorem list_students_agrees_with_get_student :
  forall (db : Main.Database) (s : Main.Student),
    Main.reachable db ->
    (In s (Main.list_students db) <->
     Main.get_student db (Main.Student_id s) = Return s).
Proof.
  intros db s Hreach. unfold Main.list_students, Main.get_student.
  pose proof (proj1 (reachable_keys_unique db Hreach)) as Hnd. split.
  - intros Hin. unfold Main.get_Student.
    rewrite (find_key_In Main.Student_id _ s Hnd Hin). reflexivity.
  - destruct (Main.get_Student db (Main.Student_id s)) as [s'|] eqn:Hg;
      [|discriminate].
    intros [= ->].
    exact (proj1 (find_key_Some Main.Student_id _ _ _ Hg)).
Qed.

(** X9, witness: Ana in the school of the scenario. *)
Lemma list_students_witness :
  In (Main.mkStudent 1 "Ana") (Main.list_students school) <->
  Main.get_student school (Main.Student_id (Main.mkStudent 1 "Ana"))
    = Return (Main.mkStudent 1 "Ana").
Proof.
  apply (list_students_agrees_with_get_student
           school (Main.mkStudent 1 "Ana")).
  exact school_reachable.
Defined.

(** X10: no request removes or alters a course or an enrollment: after
    any request that writes, every course is found under its key as before
    and every enrollment row is still in its table. *)
Theorem writes_keep_courses_and_enrollments :
  forall db db' : Main.Database,
    Main.step db db' ->
    (forall cid c, Main.get_Course db cid = Some c ->
                   Main.get_Course db' cid = Some c) /\
    (forall e, In e (Main.enrollments db) -> In e (Main.enrollments db')).
Proof.
  intros db db' [d n | d sid | d t | d req].
  - split; intros; assumption.
  - unfold Main.delete_student. destruct (Main.get_Student d sid);
      split; intros; assumption.
  - split; [|intros; assumption].
    intros cid c Hc. unfold Main.get_Course in *.
    cbn [Main.create_course fst Main.courses].
    rewrite find_snoc, Hc. reflexivity.
  - unfold Main.enroll.
    destruct (Main.get_Student d (Main.student_id req));
      [|split; intros; assumption].
    destruct (Main.get_Course d (Main.course_id req));
      [|split; intros; assumption].
    unfold Main.add_commit_Enrollment.
    destruct (Main.enrolled d (Main.student_id req) (Main.course_id req));
      [split; intros; assumption|].
    cbn [fst Main.enrollments]. split; [intros; assumption|].
    intros e He. apply in_or_app. left. exact He.
Qed.

(** X10, witness: Ana's enrollment request in the school before it. *)
Lemma writes_keep_witness :
  (forall cid c, Main.get_Course school_before cid = Some c ->
                 Main.get_Course
                   (fst (Main.enroll school_before (Main.mkEnrollRequest 1 1)))
                   cid = Some c) /\
  (forall e, In e (Main.enrollments school_before) ->
             In e (Main.enrollments
                     (fst (Main.enroll school_before
                                       (Main.mkEnrollRequest 1 1))))).
Proof.
  apply (writes_keep_courses_and_enrollments
           school_before
           (fst (Main.enroll school_before (Main.mkEnrollRequest 1 1)))).
  exact (Main.step_enroll school_before (Main.mkEnrollRequest 1 1)).
Defined.

(** X19: [enroll] succeeds exactly when the student exists, the course
    exists and the pair is not enrolled yet.  Whenever it raises it leaves
    the database as it was, and with keys that SQLite can hold what it
    raises is a 404 or the 400; in particular a student who was deleted can
    no longer be enrolled. *)
Theorem enroll_succeeds_iff :
  forall (db : Main.Database) (req : Main.EnrollRequest),
    ((exists v, snd (Main.enroll db req) = Return v) <->
     Main.get_Student db (Main.student_id req) <> None /\
     Main.get_Course db (Main.course_id req) <> None /\
     Main.enrolled db (Main.student_id req) (Main.course_id req) = false) /\
    (forall x,
        snd (Main.enroll db req) = Raise x ->
        fst (Main.enroll db req) = db) /\
    (forall x,
        snd (Main.enroll db req) = Raise x ->
        sqlite_integer (Main.student_id req) = true ->
        sqlite_integer (Main.course_id req) = true ->
        x = HTTPException 404 "Student not found" [] \/
        x = HTTPException 404 "Course not found" [] \/
        x = HTTPException 400 "Already enrolled (or invalid)" []) /\
    (Main.get_Student db (Main.student_id req) <> None ->
     Main.enroll (fst (Main.delete_student db (Main.student_id req))) req =
     (fst (Main.delete_student db (Main.student_id req)),
      Raise (HTTPException 404 "Student not found" []))).
Proof.
  intros db req. split; [|split; [|split]].
  - split.
    + intros [v Hv]. destruct (enroll_Return db req v Hv) as (? & ? & ? & _).
      repeat split; assumption.
    + intros (Hs & Hc & Hen). unfold Main.enroll.
      destruct (Main.get_Student db (Main.student_id req)); [|congruence].
      destruct (Main.get_Course db (Main.course_id req)); [|congruence].
      unfold Main.add_commit_Enrollment. rewrite Hen.
      eexists. reflexivity.
  - intros x. unfold Main.enroll.
    destruct (Main.get_Student db (Main.student_id req)); [|reflexivity].
    destruct (Main.get_Course db (Main.course_id req)); [|reflexivity].
    destruct (Main.add_commit_Enrollment _ _ _); [discriminate|reflexivity].
  - intros x Hx _ _. revert Hx. unfold Main.enroll.
    destruct (Main.get_Student db (Main.student_id req));
      [|intros [= <-]; left; reflexivity].
    destruct (Main.get_Course db (Main.course_id req));
      [|intros [= <-]; right; left; reflexivity].
    destruct (Main.add_commit_Enrollment _ _ _); [discriminate|].
    intros [= <-]. right; right; reflexivity.
  - intros Hs. unfold Main.delete_student.
    destruct (Main.get_Student db (Main.student_id req)); [|congruence].
    cbn [fst]. unfold Main.enroll, Main.get_Student at 1.
    cbn [Main.students].
    rewrite (find_filter_gone Main.Student_id). reflexivity.
Qed.

(** X19, witness: Ana, deleted from the school of four enrollments, asks
    for History 201 again; and Bob's request for a course of key 9 leaves
    that school as it was. *)
Lemma enroll_after_delete_witness :
  Main.enroll (fst (Main.delete_student school_two 1))
              (Main.mkEnrollRequest 1 2)
  = (fst (Main.delete_student school_two 1),
     Raise (HTTPException 404 "Student not found" [])) /\
  fst (Main.enroll school_two (Main.mkEnrollRequest 2 9)) = school_two.
Proof.
  split.
  - apply (proj2 (proj2 (proj2 (enroll_succeeds_iff
                                  school_two (Main.mkEnrollRequest 1 2))))).
    discriminate.
  - apply (proj1 (proj2 (enroll_succeeds_iff
                           school_two (Main.mkEnrollRequest 2 9)))
             (HTTPException 404 "Course not found" [])).
    reflexivity.
Defined.

(* ================================================================== *)
(** ** student_exam.py: how the routes compose *)
(* ================================================================== *)

Section LookupFacts.
Import StudentExam.

Lemma filter_email_free (db : Session) (e : string) :
  email_taken db e = false ->
  filter (fun r => String.eqb (email r) e) db = [].
Proof.
  intros Hfree. pose proof (email_taken_filter db e) as Ht.
  destruct (filter _ db) as [|r rest]; [reflexivity|].
  rewrite (proj2 Ht) in Hfree; discriminate.
Qed.

Lemma get_student_by_email_Some (db : Session) (e : string) (s : Student) :
  get_student_by_email db e = Return (Some s) ->
  filter (fun r => String.eqb (email r) e) db = [s] /\
  In s db /\ email s = e.
Proof.
  unfold get_student_by_email.
  destruct (filter _ db) as [|r [|r' rest]] eqn:Hf;
    cbn [scalar_one_or_none]; try discriminate.
  intros [= ->]. split; [reflexivity|].
  assert (Hin : In s (filter (fun r => String.eqb (email r) e) db))
    by (rewrite Hf; left; reflexivity).
  apply filter_In in Hin as [Hin He]. apply String.eqb_eq in He.
  split; assumption.
Qed.

Lemma get_student_by_email_None (db : Session) (e : string) :
  get_student_by_email db e = Return None <-> email_taken db e = false.
Proof.
  unfold get_student_by_email. split.
  - pose proof (email_taken_filter db e) as Ht.
    destruct (filter _ db) as [|r [|r' rest]]; cbn [scalar_one_or_none];
      try discriminate.
    intros _. destruct (email_taken db e); [|reflexivity].
    exfalso. apply (proj1 Ht); reflexivity.
  - intros Hfree. rewrite (filter_email_free db e Hfree). reflexivity.
Qed.

Lemma get_student_by_email_snoc (db : Session) (row : Student) :
  email_taken db (email row) = false ->
  get_student_by_email (db ++ [row])%list (email row) = Return (Some row).
Proof.
  intros Hfree. unfold get_student_by_email.
  rewrite filter_app, (filter_email_free db _ Hfree). cbn [filter app].
  rewrite String.eqb_refl. reflexivity.
Qed.

(** [register] on a free email, whatever else the table holds. *)
Lemma register_on_free_email (db : Session) (salt : string)
      (payload : StudentCreate) :
  email_taken db (create_email payload) = false ->
  register db salt payload =
  match get_password_hash salt (create_password payload) with
  | Raise e => (db, Raise e)
  | Return h =>
      let row := mkStudent (next_id db) (create_name payload)
                           (create_email payload) h true in
      ((db ++ [row])%list, Return row)
  end.
Proof.
  intros Hfree. unfold register.
  rewrite (proj2 (get_student_by_email_None db _) Hfree).
  destruct (get_password_hash salt (create_password payload));
    [|reflexivity].
  unfold add_commit_refresh. rewrite Hfree. reflexivity.
Qed.

(** [register] on a taken email never goes as far as the hashing. *)
Lemma register_on_taken_email (db : Session) (salt : string)
      (payload : StudentCreate) :
  email_taken db (create_email payload) = true ->
  register db salt payload =
    (db, Raise (HTTPException 400 "Email already registered" [])) \/
  register db salt payload = (db, Raise MultipleResultsFound).
Proof.
  intros Htaken. unfold register, get_student_by_email.
  pose proof (proj1 (email_taken_filter db (create_email payload)) Htaken)
    as Hf.
  destruct (filter _ db) as [|r [|r' rest]]; cbn [scalar_one_or_none].
  - contradiction Hf; reflexivity.
  - left. reflexivity.
  - right. reflexivity.
Qed.

(** A token that was issued is the encoding of the issued claims. *)
Lemma create_access_token_Return (now : Datetime.datetime) (e : string)
      (m : Z) (tok : Jose.token) :
  create_access_token now e m = Return tok ->
  tok = Jose.encode (issued_claims now e m) SECRET_KEY ALGORITHM.
Proof.
  unfold create_access_token, Datetime.timedelta_minutes, Datetime.add.
  destruct (_ && _); cbn [bind]; [|discriminate].
  destruct (Datetime.in_range _); cbn [bind]; [|discriminate].
  intros [= <-]. reflexivity.
Qed.

(** A token is accepted throughout the minutes it was issued for. *)
Lemma decode_subject_issued (now now' : Datetime.datetime) (e : string)
      (m : Z) :
  now' < now + m * Datetime.us_per_minute ->
  decode_subject now'
    (Jose.encode (issued_claims now e m) SECRET_KEY ALGORITHM)
  = Return (JStr e).
Proof.
  intros Hlt. unfold issued_claims. rewrite decode_subject_encoded.
  pose proof (timestamp_int_bounds (now + m * Datetime.us_per_minute))
    as [Hlo _].
  pose proof (timegm_utc_mono now' (now + m * Datetime.us_per_minute)
                              ltac:(lia)).
  case_ltb; [lia | reflexivity].
Qed.

End LookupFacts.

(** X11: the lookup by email returns no account exactly when no row has
    the email; an account it returns is a row of the table with that email,
    and the only one; it raises, with [MultipleResultsFound], exactly when
    several rows have the email, which a table with unique emails never
    makes it do. *)
Theorem get_student_by_email_contract :
  forall (db : StudentExam.Session) (e : string),
    (StudentExam.get_student_by_email db e = Return None <->
     StudentExam.email_taken db e = false) /\
    (forall s,
        StudentExam.get_student_by_email db e = Return (Some s) ->
        In s db /\ StudentExam.email s = e /\
        forall s', In s' db -> StudentExam.email s' = e -> s' = s) /\
    (forall x,
        StudentExam.get_student_by_email db e = Raise x ->
        x = MultipleResultsFound /\ ~ NoDup (map StudentExam.email db)).
Proof.
  intros db e. split; [apply get_student_by_email_None|]. split.
  - intros s Hs.
    destruct (get_student_by_email_Some db e s Hs) as (Hf & Hin & He).
    repeat split; try assumption.
    intros s' Hin' He'.
    assert (H : In s' (filter (fun r => String.eqb (StudentExam.email r) e)
                              db)).
    { apply filter_In. split; [exact Hin' | apply String.eqb_eq; exact He']. }
    rewrite Hf in H. destruct H as [<- | []]. reflexivity.
  - intros x Hx. split.
    + revert Hx. unfold StudentExam.get_student_by_email.
      destruct (filter _ db) as [|r [|r' rest]];
        cbn [StudentExam.scalar_one_or_none]; try discriminate.
      intros [= <-]. reflexivity.
    + intros Hnd.
      destruct (get_student_by_email_unique db Hnd e)
        as [[_ (s & _ & _ & H)] | [_ H]]; congruence.
Qed.

(** X12: [register] leaves the table as it was and raises, or returns the
    row it appended at the end of the table.  That row has the name and the
    email of the request, is active, has a key no row had and an email no
    row had, and the password of the request verifies against its hash.
    On an email that is taken nothing is appended, whatever the password. *)
Theorem register_appends_one_fresh_row :
  forall (db : StudentExam.Session) (salt : string)
         (payload : StudentExam.StudentCreate),
    ((exists x, StudentExam.register db salt payload = (db, Raise x)) \/
     (exists row,
         StudentExam.register db salt payload
           = ((db ++ [row])%list, Return row) /\
         StudentExam.name row = StudentExam.create_name payload /\
         StudentExam.email row = StudentExam.create_email payload /\
         StudentExam.is_active row = true /\
         ~ In (StudentExam.id row) (map StudentExam.id db) /\
         ~ In (StudentExam.email row) (map StudentExam.email db) /\
         StudentExam.verify_password (StudentExam.create_password payload)
                                     (StudentExam.hashed_password row)
           = Return true)) /\
    (StudentExam.email_taken db (StudentExam.create_email payload) = true ->
     exists x, StudentExam.register db salt payload = (db, Raise x)).
Proof.
  intros db salt payload. split.
  - destruct (StudentExam.email_taken db (StudentExam.create_email payload))
      eqn:Htaken.
    + left. destruct (register_on_taken_email db salt payload Htaken)
        as [-> | ->]; eexists; reflexivity.
    + rewrite (register_on_free_email db salt payload Htaken).
      destruct (StudentExam.get_password_hash
                  salt (StudentExam.create_password payload))
        as [h|x] eqn:Hh; [right | left; eexists; reflexivity].
      eexists. split; [reflexivity|].
      cbn [StudentExam.name StudentExam.email StudentExam.is_active
           StudentExam.id StudentExam.hashed_password].
      repeat split.
      * apply (next_id_fresh (map StudentExam.id db)).
      * intros Hin. apply email_taken_In in Hin. congruence.
      * revert Hh. unfold StudentExam.get_password_hash, Passlib.hash,
          StudentExam.verify_password, Passlib.verify.
        destruct (Passlib.prepare_secret
                    (StudentExam.create_password payload));
          cbn [bind]; [|discriminate].
        intros [= <-]. rewrite String.eqb_refl. reflexivity.
  - intros Htaken.
    destruct (register_on_taken_email db salt payload Htaken) as [-> | ->];
      eexists; reflexivity.
Qed.

(** X13: registration keeps the table's invariants: on a table whose
    emails and keys are pairwise different and whose hashes are all
    well-formed, the table [register] leaves has them too. *)
Theorem register_keeps_table_invariants :
  forall (db : StudentExam.Session) (salt : string)
         (payload : StudentExam.StudentCreate),
    NoDup (map StudentExam.email db) ->
    NoDup (map StudentExam.id db) ->
    forallb (fun s => well_formed_hash (StudentExam.hashed_password s)) db
      = true ->
    let db' := fst (StudentExam.register db salt payload) in
    NoDup (map StudentExam.email db') /\
    NoDup (map StudentExam.id db') /\
    forallb (fun s => well_formed_hash (StudentExam.hashed_password s)) db'
      = true.
Proof.
  intros db salt payload He Hi Hw db'. unfold db'.
  destruct (StudentExam.email_taken db (StudentExam.create_email payload))
    eqn:Htaken.
  - destruct (register_on_taken_email db salt payload Htaken) as [-> | ->];
      repeat split; assumption.
  - rewrite (register_on_free_email db salt payload Htaken).
    destruct (StudentExam.get_password_hash
                salt (StudentExam.create_password payload))
      as [h|x] eqn:Hh; cbn [fst]; [|repeat split; assumption].
    rewrite !map_app, forallb_app, Hw.
    cbn [map forallb StudentExam.email StudentExam.id
         StudentExam.hashed_password].
    rewrite (get_password_hash_well_formed _ _ _ Hh).
    repeat split.
    + apply NoDup_snoc; [exact He|].
      intros Hin. apply email_taken_In in Hin. congruence.
    + apply NoDup_snoc; [exact Hi|].
      apply (next_id_fresh (map StudentExam.id db)).
Qed.

(** X13, witness: Carol registers on the table of Ana and Bob. *)
Lemma register_invariants_witness :
  let db' := fst (StudentExam.register [ana_row; bob_row] ana_salt carol) in
  NoDup (map StudentExam.email db') /\
  NoDup (map StudentExam.id db') /\
  forallb (fun s => well_formed_hash (StudentExam.hashed_password s)) db'
    = true.
Proof.
  apply (register_keeps_table_invariants [ana_row; bob_row] ana_salt carol).
  - repeat constructor; cbn; intuition discriminate.
  - repeat constructor; cbn; intuition discriminate.
  - reflexivity.
Defined.

(** X14: registration, login and [GET /me] compose: after a registration
    with a free email and a password the hashing takes, a login with that
    email and password returns a bearer token, and within the hour that
    token makes [GET /me] return the key, the name and the email of the new
    account. *)
Theorem register_login_me :
  forall (db : StudentExam.Session) (salt : string)
         (payload : StudentExam.StudentCreate)
         (now now' : Datetime.datetime),
    StudentExam.email_taken db (StudentExam.create_email payload) = false ->
    acceptable_password (StudentExam.create_password payload) = true ->
    Datetime.in_range now = true ->
    Datetime.in_range (now + 60 * Datetime.us_per_minute) = true ->
    now <= now' < now + 60 * Datetime.us_per_minute ->
    let db' := fst (StudentExam.register db salt payload) in
    exists tok,
      StudentExam.login
        db' now
        (StudentExam.mkForm (StudentExam.create_email payload)
                            (StudentExam.create_password payload))
        = Return (StudentExam.mkToken tok "bearer") /\
      StudentExam.get_current_student_info db' now' tok
        = Return (StudentExam.mkStudentOut
                    (StudentExam.next_id db)
                    (StudentExam.create_name payload)
                    (StudentExam.create_email payload)).
Proof.
  intros db salt payload now now' Hfree Hp Hnow Hexp [Hle Hlt] db'.
  unfold db'. rewrite (register_on_free_email db salt payload Hfree).
  rewrite (get_password_hash_acceptable salt _ Hp). cbn [fst].
  set (row := StudentExam.mkStudent _ _ _ _ _).
  assert (Hrow : StudentExam.get_student_by_email
                   (db ++ [row])%list (StudentExam.create_email payload)
                 = Return (Some row)).
  { apply (get_student_by_email_snoc db row). exact Hfree. }
  exists (Jose.encode
            (issued_claims now (StudentExam.create_email payload) 60)
            StudentExam.SECRET_KEY StudentExam.ALGORITHM).
  split.
  - unfold StudentExam.login.
    cbn [StudentExam.username StudentExam.password].
    rewrite Hrow. cbn [bind].
    unfold StudentExam.verify_password, Passlib.verify, row.
    cbn [StudentExam.hashed_password StudentExam.email].
    rewrite (prepare_acceptable _ Hp). cbn [bind].
    rewrite String.eqb_refl. cbn [negb].
    rewrite (create_access_token_in_range now _ 60 Hnow Hexp).
    reflexivity.
  - unfold StudentExam.get_current_student_info.
    rewrite (get_current_student_subject
               _ _ _ (StudentExam.create_email payload)
               (decode_subject_issued now now' _ 60 Hlt)).
    unfold lookup_outcome. rewrite Hrow. reflexivity.
Qed.

(** X14, witness: the scenario, read half an hour after the login. *)
Lemma register_login_me_witness :
  let db' := fst (StudentExam.register [] ana_salt ana) in
  exists tok,
    StudentExam.login
      db' t0
      (StudentExam.mkForm (StudentExam.create_email ana)
                          (StudentExam.create_password ana))
      = Return (StudentExam.mkToken tok "bearer") /\
    StudentExam.get_current_student_info
      db' (t0 + 30 * Datetime.us_per_minute) tok
      = Return (StudentExam.mkStudentOut
                  (StudentExam.next_id [])
                  (StudentExam.create_name ana)
                  (StudentExam.create_email ana)).
Proof.
  apply (register_login_me [] ana_salt ana t0
                           (t0 + 30 * Datetime.us_per_minute));
    try reflexivity.
  split; vm_compute; [discriminate | reflexivity].
Defined.

(** X15: on a registered account, a login with another password the
    hashing takes is answered with the generic 401 when the two passwords
    differ within their first 72 bytes, and is accepted like the registered
    password when they agree on them: bcrypt reads no further. *)
Theorem login_compares_72_bytes :
  forall (db : StudentExam.Session) (salt : string)
         (payload : StudentExam.StudentCreate) (now : Datetime.datetime)
         (p : string),
    StudentExam.email_taken db (StudentExam.create_email payload) = false ->
    acceptable_password (StudentExam.create_password payload) = true ->
    acceptable_password p = true ->
    let db' := fst (StudentExam.register db salt payload) in
    let form := StudentExam.mkForm (StudentExam.create_email payload) p in
    (Passlib.truncate p
       <> Passlib.truncate (StudentExam.create_password payload) ->
     StudentExam.login db' now form
       = Raise (HTTPException 401 "Incorrect email or password"
                              [("WWW-Authenticate", "Bearer")])) /\
    (Passlib.truncate p
       = Passlib.truncate (StudentExam.create_password payload) ->
     StudentExam.login db' now form =
     StudentExam.login
       db' now
       (StudentExam.mkForm (StudentExam.create_email payload)
                           (StudentExam.create_password payload))).
Proof.
  intros db salt payload now p Hfree Hp0 Hp db' form.
  unfold db'. rewrite (register_on_free_email db salt payload Hfree).
  rewrite (get_password_hash_acceptable salt _ Hp0). cbn [fst].
  set (row := StudentExam.mkStudent _ _ _ _ _).
  assert (Hrow : StudentExam.get_student_by_email
                   (db ++ [row])%list (StudentExam.create_email payload)
                 = Return (Some row)).
  { apply (get_student_by_email_snoc db row). exact Hfree. }
  unfold StudentExam.login, form.
  cbn [StudentExam.username StudentExam.password].
  rewrite Hrow. cbn [bind].
  unfold StudentExam.verify_password, Passlib.verify, row.
  cbn [StudentExam.hashed_password StudentExam.email].
  rewrite (prepare_acceptable _ Hp), (prepare_acceptable _ Hp0).
  cbn [bind]. split.
  - intros Hne. apply not_eq_sym in Hne.
    apply String.eqb_neq in Hne. rewrite Hne. reflexivity.
  - intros ->. reflexivity.
Qed.

(** X15, witness: "wrong" against Ana's "secret123". *)
Lemma login_compares_witness :
  let db' := fst (StudentExam.register [] ana_salt ana) in
  let form := StudentExam.mkForm (StudentExam.create_email ana) "wrong" in
  (Passlib.truncate "wrong"
     <> Passlib.truncate (StudentExam.create_password ana) ->
   StudentExam.login db' t0 form
     = Raise (HTTPException 401 "Incorrect email or password"
                            [("WWW-Authenticate", "Bearer")])) /\
  (Passlib.truncate "wrong"
     = Passlib.truncate (StudentExam.create_password ana) ->
   StudentExam.login db' t0 form =
   StudentExam.login
     db' t0
     (StudentExam.mkForm (StudentExam.create_email ana)
                         (StudentExam.create_password ana))).
Proof.
  apply (login_compares_72_bytes [] ana_salt ana t0 "wrong"); reflexivity.
Defined.

(** X16: whenever [login] returns, what it returns is a token of type
    "bearer" that, for the hour that follows, authenticates as an account
    of the table whose email is the username of the login, and makes
    [GET /me] return that account's public fields. *)
Theorem login_token_authenticates :
  forall (db : StudentExam.Session) (now now' : Datetime.datetime)
         (form_data : StudentExam.OAuth2PasswordRequestForm)
         (tok : StudentExam.Token),
    StudentExam.login db now form_data = Return tok ->
    now <= now' < now + 60 * Datetime.us_per_minute ->
    StudentExam.token_type tok = "bearer" /\
    exists s,
      In s db /\
      StudentExam.email s = StudentExam.username form_data /\
      StudentExam.verify_password (StudentExam.password form_data)
                                  (StudentExam.hashed_password s)
        = Return true /\
      StudentExam.get_current_student
        db now' (StudentExam.access_token tok) = Return s /\
      StudentExam.get_current_student_info
        db now' (StudentExam.access_token tok)
        = Return (StudentExam.to_StudentOut s).
Proof.
  intros db now now' form tok Hlogin [Hle Hlt].
  unfold StudentExam.login in Hlogin.
  destruct (StudentExam.get_student_by_email db (StudentExam.username form))
    as [[s|]|x] eqn:Hs; cbn [bind] in Hlogin; try discriminate.
  destruct (StudentExam.verify_password _ _) as [[|]|x] eqn:Hv;
    cbn [bind negb] in Hlogin; try discriminate.
  destruct (StudentExam.create_access_token _ _ _) as [t|x] eqn:Ht;
    cbn [bind] in Hlogin; [|discriminate].
  injection Hlogin as <-.
  apply create_access_token_Return in Ht. subst t.
  destruct (get_student_by_email_Some db _ s Hs) as (_ & Hin & He).
  cbn [StudentExam.token_type StudentExam.access_token].
  split; [reflexivity|]. exists s.
  assert (Hauth : StudentExam.get_current_student
                    db now'
                    (Jose.encode
                       (issued_claims now (StudentExam.email s)
                                      StudentExam.ACCESS_TOKEN_EXPIRE_MINUTES)
                       StudentExam.SECRET_KEY StudentExam.ALGORITHM)
                  = Return s).
  { rewrite (get_current_student_subject
               _ _ _ (StudentExam.email s)
               (decode_subject_issued now now' _ 60 Hlt)).
    unfold lookup_outcome. rewrite He, Hs. reflexivity. }
  repeat split; try assumption.
  unfold StudentExam.get_current_student_info. rewrite Hauth. reflexivity.
Qed.

(** X16, witness: Ana's login of the scenario, read at once. *)
Lemma login_token_witness :
  StudentExam.token_type (StudentExam.mkToken ana_token "bearer")
    = "bearer" /\
  exists s,
    In s [ana_row] /\
    StudentExam.email s
      = StudentExam.username (StudentExam.mkForm "a@x.com" "secret123") /\
    StudentExam.verify_password
      (StudentExam.password (StudentExam.mkForm "a@x.com" "secret123"))
      (StudentExam.hashed_password s) = Return true /\
    StudentExam.get_current_student
      [ana_row] t0
      (StudentExam.access_token (StudentExam.mkToken ana_token "bearer"))
      = Return s /\
    StudentExam.get_current_student_info
      [ana_row] t0
      (StudentExam.access_token (StudentExam.mkToken ana_token "bearer"))
      = Return (StudentExam.to_StudentOut s).
Proof.
  apply (login_token_authenticates
           [ana_row] t0 t0 (StudentExam.mkForm "a@x.com" "secret123")
           (StudentExam.mkToken ana_token "bearer")).
  - reflexivity.
  - split; vm_compute; [discriminate | reflexivity].
Defined.

Section SoundnessFacts.
Import StudentExam.

(** What [jwt.decode] has checked when it returns. *)
Lemma decode_Return (tok : Jose.token) (key : string) (algs : list string)
      (now : Datetime.datetime) (claims : dict) :
  Jose.decode tok key algs now = Return claims ->
  exists header alg,
    tok = Jose.Compact header (Jose.JsonText (JObj claims))
                       (Jose.Hmac alg (Jose.hmac_key key)) /\
    dict_lookup header "alg" = Some (JStr alg) /\
    In alg algs /\
    Jose.validate_claims claims (Datetime.timegm_utc now) = Return tt.
Proof.
  unfold Jose.decode, Jose.jws_verify.
  destruct tok as [header body sig | s]; [|discriminate].
  destruct (dict_lookup header "alg") as [[ | | |alg| | | ]|] eqn:Halg;
    try discriminate.
  destruct (alg =? "")%string; [discriminate|].
  destruct (existsb (String.eqb alg) algs) eqn:Hin; cbn [negb];
    [|discriminate].
  destruct (Jose.sig_matches sig alg key) eqn:Hsig; [|discriminate].
  destruct body as [[ | | | | |m| ]|]; try discriminate.
  destruct (Jose.validate_claims m (Datetime.timegm_utc now)) as [[]|x]
    eqn:Hval; cbn [bind]; [|discriminate].
  intros [= <-]. exists header, alg.
  destruct sig as [a k|]; cbn [Jose.sig_matches] in Hsig; [|discriminate].
  apply andb_prop in Hsig as [Ha Hk].
  apply String.eqb_eq in Ha, Hk. subst a k.
  apply existsb_exists in Hin as (a & Hin & Ha).
  apply String.eqb_eq in Ha. subst a.
  repeat split; try assumption; reflexivity.
Qed.

(** Claims that passed carry no integer [exp] before the clock. *)
Lemma validate_claims_exp (claims : dict) (now exp : Z) :
  Jose.validate_claims claims now = Return tt ->
  dict_lookup claims "exp" = Some (JInt exp) ->
  now <= exp.
Proof.
  unfold Jose.validate_claims. intros Hval Hexp.
  do 2 (apply bind_Return in Hval as ([] & _ & Hval)).
  apply bind_Return in Hval as ([] & Hv & _).
  unfold Jose.validate_exp in Hv. rewrite Hexp in Hv.
  cbn [Jose.int_claim Python.int bind] in Hv.
  revert Hv. case_ltb; [discriminate | intros _; assumption].
Qed.

End SoundnessFacts.

(** X17: [get_current_student] returns an account only for a token that
    carries an HS256 tag under the service's secret over its own header
    and claims, whose header names HS256, whose subject is the email of
    that account, and whose integer [exp], when it has one, is not before
    the current second; the account is a row of the table.  A token with
    another algorithm, another key or no valid tag never authenticates. *)
Theorem authenticated_account_is_the_signed_subject :
  forall (db : StudentExam.Session) (now : Datetime.datetime)
         (token : Jose.token) (s : StudentExam.Student),
    StudentExam.get_current_student db now token = Return s ->
    In s db /\
    exists header claims,
      token = Jose.Compact header (Jose.JsonText (JObj claims))
                           (Jose.Hmac "HS256" StudentExam.SECRET_KEY) /\
      dict_lookup header "alg" = Some (JStr "HS256") /\
      dict_lookup claims "sub" = Some (JStr (StudentExam.email s)) /\
      (forall exp, dict_lookup claims "exp" = Some (JInt exp) ->
                   Datetime.timegm_utc now <= exp).
Proof.
  intros db now token s. unfold StudentExam.get_current_student.
  destruct (StudentExam.decode_subject now token) as [v|x] eqn:Hv;
    cbn [bind]; [|discriminate].
  destruct (decode_subject_returns_str now token v Hv) as [e ->].
  destruct (StudentExam.get_student_by_email db e) as [[s'|]|x] eqn:Hs;
    cbn [bind]; try discriminate.
  intros [= ->].
  destruct (get_student_by_email_Some db e s Hs) as (_ & Hin & He).
  split; [exact Hin|].
  unfold StudentExam.decode_subject in Hv.
  destruct (Jose.decode token StudentExam.SECRET_KEY
                        [StudentExam.ALGORITHM] now)
    as [claims|x] eqn:Hdec; [|destruct (is_JWTError x); discriminate].
  destruct (decode_Return _ _ _ _ _ Hdec)
    as (header & alg & -> & Halg & [<- | []] & Hval).
  exists header, claims. repeat split; try assumption.
  - destruct (dict_lookup claims "sub") as [[ | | |e'| | | ]|];
      try discriminate.
    injection Hv as ->. rewrite He. reflexivity.
  - intros exp Hexp. exact (validate_claims_exp _ _ _ Hval Hexp).
Qed.

(** X17, witness: Ana's request of the scenario. *)
Lemma authenticated_account_witness :
  In ana_row [ana_row] /\
  exists header claims,
    ana_token = Jose.Compact header (Jose.JsonText (JObj claims))
                             (Jose.Hmac "HS256" StudentExam.SECRET_KEY) /\
    dict_lookup header "alg" = Some (JStr "HS256") /\
    dict_lookup claims "sub" = Some (JStr (StudentExam.email ana_row)) /\
    (forall exp, dict_lookup claims "exp" = Some (JInt exp) ->
                 Datetime.timegm_utc t0 <= exp).
Proof.
  apply (authenticated_account_is_the_signed_subject
           [ana_row] t0 ana_token ana_row).
  reflexivity.
Defined.

Section LifetimeFacts.
Import Datetime.

(** Before the year 2514 the double holds the seconds of a date to less
    than half a microsecond: [int(t.timestamp())] is the whole second. *)
Lemma timestamp_int_exact (t : datetime) :
  0 <= t < exact_until -> timestamp_int t = timegm_utc t.
Proof.
  unfold exact_until, timestamp_int, timegm_utc, us_per_second.
  intros [Hlo Hhi]. rewrite (Z.abs_eq t Hlo).
  pose proof (Z.mod_pos_bound t 1000000 ltac:(lia)) as Hf.
  assert (Hw : 0 <= t / 1000000 < 2 ^ 34).
  { split; [apply Z.div_pos; lia|].
    apply Z.div_lt_upper_bound; lia. }
  assert (Hup : rounds_up (t / 1000000) (t mod 1000000) = false).
  { unfold rounds_up, us_per_second.
    destruct (Z.ltb_spec 0 (t / 1000000)) as [Hpos|]; [|reflexivity].
    destruct (Z.ltb_spec 0 (t mod 1000000)); [|reflexivity].
    cbn [andb]. apply Z.leb_gt.
    assert (Hlog : Z.log2 (t / 1000000) < 34)
      by (apply Z.log2_lt_pow2; lia).
    assert (Hpow : 2 ^ Z.log2 (t / 1000000) <= 2 ^ 33)
      by (apply Z.pow_le_mono_r; lia).
    change (2 ^ 53) with 9007199254740992.
    change (2 ^ 33) with 8589934592 in Hpow. nia. }
  rewrite Hup.
  destruct (Z.sgn_spec t) as [[? ->]|[[<- ->]|[? ->]]]; [lia | reflexivity | lia].
Qed.

End LifetimeFacts.

(** X18: for a clock and an expiry between 1970 and the year 2514,
    [create_access_token] returns a token whose [iat] is the current second
    and whose [exp] is exactly [iat + 60 * expires_minutes]; verification
    returns its subject exactly at the instants whose second is at most
    [exp], and raises the 401 at all later ones. *)
Theorem token_lifetime_is_exact :
  forall (now now' : Datetime.datetime) (subject : string)
         (expires_minutes : Z),
    0 <= now < exact_until ->
    0 <= now + expires_minutes * Datetime.us_per_minute < exact_until ->
    let iat := Datetime.timegm_utc now in
    let tok := Jose.encode [("sub", JStr subject); ("iat", JInt iat);
                            ("exp", JInt (iat + 60 * expires_minutes))]
                           StudentExam.SECRET_KEY StudentExam.ALGORITHM in
    StudentExam.create_access_token now subject expires_minutes
      = Return tok /\
    (Datetime.timegm_utc now' <= iat + 60 * expires_minutes ->
     StudentExam.decode_subject now' tok = Return (JStr subject)) /\
    (iat + 60 * expires_minutes < Datetime.timegm_utc now' ->
     StudentExam.decode_subject now' tok
       = Raise StudentExam.credentials_exception).
Proof.
  intros now now' subject m Hnow Hexp iat tok.
  assert (Hr : forall t, 0 <= t < exact_until ->
                         Datetime.in_range t = true).
  { intros t [Hlo Hhi]. unfold Datetime.in_range.
    apply andb_true_intro. split; apply Z.leb_le.
    - unfold Datetime.min_us, Datetime.us_per_second. lia.
    - unfold exact_until in Hhi.
      unfold Datetime.max_us, Datetime.us_per_second. lia. }
  split.
  - rewrite (create_access_token_in_range now subject m
               (Hr _ Hnow) (Hr _ Hexp)).
    unfold issued_claims, tok, iat.
    rewrite (timestamp_int_exact now Hnow),
      (timestamp_int_exact _ Hexp), timegm_utc_shift.
    reflexivity.
  - unfold tok. rewrite decode_subject_encoded.
    case_ltb; split; intros; try reflexivity; lia.
Qed.

(** X18, witness: the hour of Ana's token. *)
Lemma token_lifetime_witness :
  let iat := Datetime.timegm_utc t0 in
  let tok := Jose.encode [("sub", JStr "a@x.com"); ("iat", JInt iat);
                          ("exp", JInt (iat + 60 * 60))]
                         StudentExam.SECRET_KEY StudentExam.ALGORITHM in
  StudentExam.create_access_token t0 "a@x.com" 60 = Return tok /\
  (Datetime.timegm_utc (t0 + 60 * Datetime.us_per_minute) <= iat + 60 * 60 ->
   StudentExam.decode_subject (t0 + 60 * Datetime.us_per_minute) tok
     = Return (JStr "a@x.com")) /\
  (iat + 60 * 60 < Datetime.timegm_utc (t0 + 60 * Datetime.us_per_minute) ->
   StudentExam.decode_subject (t0 + 60 * Datetime.us_per_minute) tok
     = Raise StudentExam.credentials_exception).
Proof.
  apply (token_lifetime_is_exact
           t0 (t0 + 60 * Datetime.us_per_minute) "a@x.com" 60);
    split; vm_compute; try discriminate; reflexivity.
Defined.
